(** * py3dbp-container: the container-loading engine and its wrappers

    A shallow embedding of [core/container.py], [core/packer.py],
    [core/utils.py] and the rotation chain of [container_only.py]; then of
    [core/visualizer.py], [main_class.py], [cargo_items.py] and of what the
    scripts [main.py] and [container_only.py] compute.

    Conventions.
    - Python numbers ([int], [float], [Decimal]) are exact rationals [Q];
      [float(x)] is therefore the identity and rounding is not modelled.
    - Python [int] used as an index or a counter is [Z].
    - A Python exception is a value of [exn]; code that may raise returns
      [result A].
    - [py3dbp] (classes [Item], [Bin], [Packer]) is imported by the sources
      and is not part of them; it is modelled from the specification.
    - matplotlib and pandas are libraries too: of an axes object the model
      keeps what the sources draw and set on it, of a data frame its column
      names and its rows, and of the file system what the loader asks. *)

From Stdlib Require Import Ascii String QArith Qminmax Lqa Lia Psatz.
From stdpp Require Import base option list gmap strings pretty.

Local Open Scope Q_scope.

(** ** Python runtime: exceptions, arithmetic, strings *)

Inductive exn : Type :=
  | RuntimeError (msg : string)
  | ZeroDivisionError
  | IndexError.

Inductive result (A : Type) : Type :=
  | Ok (a : A)
  | Raise (e : exn).
Arguments Ok {A} a.
Arguments Raise {A} e.

#[global] Instance result_ret : MRet result := fun A a => Ok a.
#[global] Instance result_bind : MBind result := fun A B k m =>
  match m with
  | Ok a => k a
  | Raise e => Raise e
  end.

(** [float(x)]. *)
Definition float (x : Q) : Q := x.

Definition Qlt_bool (a b : Q) : bool := negb (Qle_bool b a).

(** [a / b] on floats: raises [ZeroDivisionError] on a zero divisor. *)
Definition truediv (a b : Q) : result Q :=
  if Qeq_bool b 0 then Raise ZeroDivisionError else Ok (a / b).

(** The builtin [sum]: a left fold that starts from [0]. *)
Definition sum (l : list Q) : Q := fold_left Qplus l 0.

(** [range(n)]: empty when [n <= 0]. *)
Definition range (n : Z) : list Z := map Z.of_nat (seq 0 (Z.to_nat n)).

(** [l[i]] for [i >= 0]. *)
Definition getitem {A} (l : list A) (i : nat) : result A :=
  match l !! i with
  | Some a => Ok a
  | None => Raise IndexError
  end.

(** [s.split(sep)] for a one-character separator. *)
Fixpoint split (sep : ascii) (s : string) : list string :=
  match s with
  | EmptyString => [EmptyString]
  | String c s' =>
      if Ascii.eqb c sep then EmptyString :: split sep s'
      else match split sep s' with
           | [] => [String c EmptyString]
           | w :: ws => String c w :: ws
           end
  end.

Definition triple : Type := Q * Q * Q.

(** ** py3dbp data holders *)

(** Modelled from the spec: the six rotation states of section 3 (py3dbp's
    [RotationType]), with the index under which each is stored in an item. *)
Inductive RotationType : Type :=
  | RT_WHD | RT_HWD | RT_HDW | RT_DHW | RT_DWH | RT_WDH.

Module RotationType.
(** Modelled from the spec: the rotation indices 0..5 "in that numeric
    order" of section 4.4 (py3dbp's [RotationType.ALL]). *)
Definition ALL : list RotationType :=
  [RT_WHD; RT_HWD; RT_HDW; RT_DHW; RT_DWH; RT_WDH].

(** Modelled from the spec: the index column of the table in section 3. *)
Definition index (r : RotationType) : Z :=
  match r with
  | RT_WHD => 0 | RT_HWD => 1 | RT_HDW => 2
  | RT_DHW => 3 | RT_DWH => 4 | RT_WDH => 5
  end.
End RotationType.

Module Item.
(** Modelled from the spec: py3dbp's [Item], a data holder with the
    attributes the sources read ([name], [width], [height], [depth],
    [weight], [rotation_type], [position]). *)
Record t : Type := mk {
  name : string;
  width : Q;
  height : Q;
  depth : Q;
  weight : Q;
  rotation_type : Z;
  position : triple
}.

(** Modelled from the spec: py3dbp's constructor
    [Item(name, width, height, depth, weight)]; the new item is unplaced
    (rotation 0, position at the origin). *)
Definition __init__ (name : string) (width height depth weight : Q) : t :=
  mk name width height depth weight 0 (0, 0, 0).

(** Modelled from the spec: the intrinsic volume of section 4.4,
    [width * height * depth] of the unrotated item (py3dbp's
    [Item.get_volume]). *)
Definition get_volume (i : t) : Q := width i * height i * depth i.

(** Modelled from the spec: the occupied dimension triple under a rotation
    state, by the permutation table of section 3. *)
Definition get_dimension (i : t) (r : RotationType) : triple :=
  match r with
  | RT_WHD => (width i, height i, depth i)
  | RT_HWD => (height i, width i, depth i)
  | RT_HDW => (height i, depth i, width i)
  | RT_DHW => (depth i, height i, width i)
  | RT_DWH => (depth i, width i, height i)
  | RT_WDH => (width i, depth i, height i)
  end.

(** Modelled from the spec: the item once placed, "with an assigned
    rotation index and a position" (section 3); py3dbp stores both in the
    attributes [rotation_type] and [position]. *)
Definition placed_at (i : t) (p : triple) (r : RotationType) : t :=
  mk (name i) (width i) (height i) (depth i) (weight i)
     (RotationType.index r) p.
End Item.

Module Bin.
(** Modelled from the spec: py3dbp's [Bin], the container as the packer
    sees it, with its packed and unfitted items. *)
Record t : Type := mk {
  name : string;
  width : Q;
  height : Q;
  depth : Q;
  max_weight : Q;
  items : list Item.t;
  unfitted_items : list Item.t
}.

(** Modelled from the spec: py3dbp's constructor
    [Bin(name, width, height, depth, max_weight)], with nothing packed. *)
Definition __init__ (name : string) (width height depth max_weight : Q) : t :=
  mk name width height depth max_weight [] [].

(** Modelled from the spec: the container's dimension triple of section
    4.2. *)
Definition dimensions (b : t) : triple := (width b, height b, depth b).
End Bin.

(** ** The packing engine (py3dbp), after sections 4.1 to 4.4 *)

Module Geometry.
(** Modelled from the spec: section 4.1, [box_fits_within]: on each axis
    [boxPos + boxDims <= containerDims] and [boxPos >= 0], compared
    exactly. *)
Definition box_fits_within (boxPos boxDims containerDims : triple) : bool :=
  let '(x, y, z) := boxPos in
  let '(w, h, d) := boxDims in
  let '(W, H, D) := containerDims in
  Qle_bool (x + w) W && Qle_bool 0 x &&
  Qle_bool (y + h) H && Qle_bool 0 y &&
  Qle_bool (z + d) D && Qle_bool 0 z.

(** Modelled from the spec: section 4.1, one axis of [boxes_overlap]: the
    intervals [[a, a+la]] and [[b, b+lb]] share a stretch of positive
    length. *)
Definition axis_overlap (a la b lb : Q) : bool :=
  Qlt_bool (Qmax a b) (Qmin (a + la) (b + lb)).

(** Modelled from the spec: section 4.1, [boxes_overlap]: a positive-volume
    intersection on all three axes; boxes that only touch do not overlap. *)
Definition boxes_overlap (posA dimsA posB dimsB : triple) : bool :=
  let '(xa, ya, za) := posA in
  let '(wa, ha, da) := dimsA in
  let '(xb, yb, zb) := posB in
  let '(wb, hb, db) := dimsB in
  axis_overlap xa wa xb wb && axis_overlap ya ha yb hb &&
  axis_overlap za da zb db.
End Geometry.

Module CandidatePoints.
(** Modelled from the spec: section 4.3, the ordered frontier of anchors,
    kept in insertion order; nothing is ever removed. *)
Definition t : Type := list triple.

(** Modelled from the spec: section 4.3, "initialized with exactly one
    point: the origin". *)
Definition init : t := [(0, 0, 0)].

(** Modelled from the spec: section 4.3, [anchors()], the points in
    insertion order. *)
Definition anchors (s : t) : list triple := s.

(** Modelled from the spec: section 4.3, "coordinate-equal". *)
Definition coordinate_equal (p q : triple) : bool :=
  let '(x, y, z) := p in
  let '(x', y', z') := q in
  Qeq_bool x x' && Qeq_bool y y' && Qeq_bool z z'.

(** Modelled from the spec: section 4.3, [register(position)]: append
    unless a coordinate-equal anchor is already present. *)
Definition register (s : t) (p : triple) : t :=
  if existsb (coordinate_equal p) s then s else s ++ [p].
End CandidatePoints.

Module Engine.
(** Modelled from the spec: section 4.4, the state of the greedy first-fit
    run of py3dbp's [Packer.pack], which the sources call and do not
    contain: placed boxes, running weight and candidate points. *)
Record state : Type := mk_state {
  placed_boxes : list (triple * triple);
  running_weight : Q;
  points : CandidatePoints.t
}.

(** Modelled from the spec: the bookkeeping of the run of section 4.4: the
    engine state, the items placed so far and the input positions of the
    items found unfitted. *)
Record run : Type := mk_run {
  st : state;
  packed_so_far : list Item.t;
  unfitted_so_far : list nat
}.

(** Modelled from the spec: section 3, [PackingResult]: the placed items
    and the unfitted items. *)
Record PackingResult : Type := mk_result {
  packed : list Item.t;
  unfitted : list Item.t
}.

(** Modelled from the spec: section 4.4, step 1: descending intrinsic
    volume, ties in input order. [insert] puts an item in front of the first
    entry that is not strictly larger. *)
Fixpoint insert (e : nat * Item.t) (l : list (nat * Item.t))
  : list (nat * Item.t) :=
  match l with
  | [] => [e]
  | e' :: l' =>
      if Qlt_bool (Item.get_volume e.2) (Item.get_volume e'.2)
      then e' :: insert e l'
      else e :: e' :: l'
  end.

(** Modelled from the spec: section 4.4, step 1, the stable sort:
    inserting from the right keeps an earlier item ahead of a later one of
    equal volume. *)
Definition order_items (l : list (nat * Item.t)) : list (nat * Item.t) :=
  fold_right insert [] l.

(** Modelled from the spec: the items with their position in the input
    ("original input order", section 4.4; "original multiset order",
    section 3). *)
Definition indexed (items : list Item.t) : list (nat * Item.t) :=
  combine (seq 0 (length items)) items.

(** Modelled from the spec: section 4.4, step 2: no placed box, zero
    running weight, the candidate points seeded with the origin. *)
Definition init_state : state := mk_state [] 0 CandidatePoints.init.

(** Modelled from the spec: section 4.4, step 2, with nothing packed or
    unfitted yet. *)
Definition init_run : run := mk_run init_state [] [].

(** Modelled from the spec: section 4.4, step 3a, the three checks on an
    (anchor, rotation) pair: fits within the container, overlaps no placed
    box, and [running_weight + item.weight > max_weight] does not hold. *)
Definition passes (cdims : triple) (max_weight : Q) (s : state)
    (item : Item.t) (anchor : triple) (r : RotationType) : bool :=
  let dims := Item.get_dimension item r in
  Geometry.box_fits_within anchor dims cdims
  && forallb (fun b : triple * triple =>
                negb (Geometry.boxes_overlap anchor dims b.1 b.2))
             (placed_boxes s)
  && negb (Qlt_bool max_weight (running_weight s + Item.weight item)).

(** Modelled from the spec: section 4.4, step 3a, the inner loop over the
    rotation indices. *)
Fixpoint first_rotation (ok : RotationType -> bool) (rs : list RotationType)
  : option RotationType :=
  match rs with
  | [] => None
  | r :: rs' => if ok r then Some r else first_rotation ok rs'
  end.

(** Modelled from the spec: section 4.4, step 3a, the search: anchors in
    list order, rotations 0..5 within an anchor; the first pair that passes
    wins. *)
Fixpoint search (ok : triple -> RotationType -> bool) (anchors : list triple)
  : option (triple * RotationType) :=
  match anchors with
  | [] => None
  | a :: anchors' =>
      match first_rotation (ok a) RotationType.ALL with
      | Some r => Some (a, r)
      | None => search ok anchors'
      end
  end.

(** Modelled from the spec: section 4.4, step 3a, the bookkeeping of a
    placement: append the box, add the weight, register the three anchors
    in the order x, y, z. *)
Definition place (s : state) (item : Item.t) (anchor : triple)
    (r : RotationType) : state :=
  let '(w, h, d) := Item.get_dimension item r in
  let '(x, y, z) := anchor in
  mk_state
    (placed_boxes s ++ [(anchor, (w, h, d))])
    (running_weight s + Item.weight item)
    (CandidatePoints.register
       (CandidatePoints.register
          (CandidatePoints.register (points s) (x + w, y, z))
          (x, y + h, z))
       (x, y, z + d)).

(** Modelled from the spec: section 4.4, step 3 for one item of the sorted
    sequence: placed (3a) or marked unfitted with the state unchanged
    (3b). *)
Definition step (cdims : triple) (max_weight : Q) (acc : run)
    (e : nat * Item.t) : run :=
  match search (passes cdims max_weight (st acc) e.2)
               (CandidatePoints.anchors (points (st acc))) with
  | Some (anchor, r) =>
      mk_run (place (st acc) e.2 anchor r)
             (packed_so_far acc ++ [Item.placed_at e.2 anchor r])
             (unfitted_so_far acc)
  | None =>
      mk_run (st acc) (packed_so_far acc) (unfitted_so_far acc ++ [e.1])
  end.

(** Modelled from the spec: the item at this input position was marked
    unfitted. *)
Definition is_unfitted (ks : list nat) (e : nat * Item.t) : bool :=
  existsb (Nat.eqb e.1) ks.

(** Modelled from the spec: section 4.4, [pack(container, items)]: packed
    items in sort order, unfitted items in input order. The efficiency of
    step 4 is computed by the caller
    ([PackingEngine.get_load_efficiency]). *)
Definition pack (cdims : triple) (max_weight : Q) (items : list Item.t)
  : PackingResult :=
  let final :=
    fold_left (step cdims max_weight) (order_items (indexed items)) init_run in
  mk_result (packed_so_far final)
            (map snd (filter (is_unfitted (unfitted_so_far final))
                             (indexed items))).
End Engine.

Module Packer.
(** Modelled from the spec: py3dbp's [Packer], the bins and items handed to
    it; [pack] runs the engine on every bin (the sources add one). *)
Record t : Type := mk {
  bins : list Bin.t;
  items : list Item.t
}.

(** Modelled from the spec: py3dbp's [Packer()], without bins or items. *)
Definition __init__ : t := mk [] [].

(** Modelled from the spec: py3dbp's [Packer.add_bin], which appends. *)
Definition add_bin (self : t) (b : Bin.t) : t :=
  mk (bins self ++ [b]) (items self).

(** Modelled from the spec: py3dbp's [Packer.add_item], which appends and
    so keeps the catalogue order (section 6). *)
Definition add_item (self : t) (i : Item.t) : t :=
  mk (bins self) (items self ++ [i]).

(** Modelled from the spec: one run of section 4.4 on a bin, whose packed
    and unfitted items become the result's. *)
Definition pack_to_bin (items : list Item.t) (b : Bin.t) : Bin.t :=
  let r := Engine.pack (Bin.dimensions b) (Bin.max_weight b) items in
  Bin.mk (Bin.name b) (Bin.width b) (Bin.height b) (Bin.depth b)
         (Bin.max_weight b) (Engine.packed r) (Engine.unfitted r).

(** Modelled from the spec: py3dbp's [Packer.pack], the run on every bin
    ("a straightforward outer loop", section 1). *)
Definition pack (self : t) : t :=
  mk (map (pack_to_bin (items self)) (bins self)) (items self).
End Packer.

(** ** core/container.py *)

Module Container.
Record t : Type := mk {
  name : string;
  width : Q;
  height : Q;
  depth : Q;
  max_weight : Q;
  _bin : option Bin.t
}.

Definition __init__ (name : string) (width height depth max_weight : Q) : t :=
  mk name width height depth max_weight None.

(** [Container()], every argument at its default (a 40-foot container). *)
Definition default : t := __init__ "Container" 12.03 2.39 2.35 28000.

(** [create_bin] stores the new bin in [self._bin]; the updated container
    is returned next to the bin. *)
Definition create_bin (self : t) : Bin.t * t :=
  let b := Bin.__init__ (name self) (width self) (height self) (depth self)
                        (max_weight self) in
  (b, mk (name self) (width self) (height self) (depth self)
         (max_weight self) (Some b)).

Definition bin (self : t) : Bin.t * t :=
  match _bin self with
  | None => create_bin self
  | Some b => (b, self)
  end.

Definition volume (self : t) : Q :=
  float (width self * height self * depth self).

Definition get_dimensions (self : t) : triple :=
  (width self, height self, depth self).
End Container.

(** ** core/packer.py *)

(** One entry of the item catalogue, the dict that [add_items] reads. *)
Record CargoRecord : Type := mk_cargo {
  cargo_name : string;
  cargo_width : Q;
  cargo_height : Q;
  cargo_depth : Q;
  cargo_weight : Q;
  cargo_count : Z
}.

Module PackingEngine.
Record t : Type := mk {
  packer : Packer.t;
  _packed : bool
}.

Definition __init__ : t := mk Packer.__init__ false.

Definition add_container (self : t) (container : Container.t)
  : t * Container.t :=
  let '(b, container') := Container.bin container in
  (mk (Packer.add_bin (packer self) b) (_packed self), container').

(** The f-string [f"{item['name']}_{i}"]. *)
Definition item_id (name : string) (i : Z) : string :=
  name +:+ "_" +:+ pretty i.

Definition add_items (self : t) (items : list CargoRecord) : t :=
  fold_left
    (fun self item =>
       fold_left
         (fun self i =>
            mk (Packer.add_item (packer self)
                  (Item.__init__ (item_id (cargo_name item) i)
                     (cargo_width item) (cargo_height item)
                     (cargo_depth item) (cargo_weight item)))
               (_packed self))
         (range (cargo_count item)) self)
    items self.

Definition pack (self : t) : t :=
  mk (Packer.pack (packer self)) true.

Definition not_packed_yet : exn :=
  RuntimeError "Items have not been packed yet. Call pack() first.".

Definition packed_items (self : t) : result (list Item.t) :=
  if negb (_packed self) then Raise not_packed_yet
  else if (0 <? length (Packer.bins (packer self)))%nat
       then b ← getitem (Packer.bins (packer self)) 0; mret (Bin.items b)
       else mret [].

Definition unfitted_items (self : t) : result (list Item.t) :=
  if negb (_packed self) then Raise not_packed_yet
  else if (0 <? length (Packer.bins (packer self)))%nat
       then b ← getitem (Packer.bins (packer self)) 0;
            mret (Bin.unfitted_items b)
       else mret [].

Definition get_load_efficiency (self : t) (container : Container.t)
  : result Q :=
  if negb (_packed self) then mret 0
  else
    its ← packed_items self;
    let used_volume :=
      sum (map (fun item =>
                  float (Item.width item * Item.height item * Item.depth item))
               its) in
    r ← truediv used_volume (Container.volume container);
    mret (r * 100).

Definition get_unfitted_stats (self : t) : result (gmap string Z) :=
  its ← unfitted_items self;
  fold_left
    (fun stats item =>
       stats ← stats;
       item_name ← getitem (split "_" (Item.name item)) 0;
       mret (<[item_name := (default 0%Z (stats !! item_name) + 1)%Z]> stats))
    its (mret ∅).
End PackingEngine.

(** ** core/utils.py and the rotation chain of container_only.py *)

Definition get_rotated_dimensions (item : Item.t) : list Q :=
  let rotation_map : gmap Z (list Q) :=
    <[5%Z := [float (Item.width item); float (Item.depth item);
              float (Item.height item)]]>
    (<[4%Z := [float (Item.depth item); float (Item.width item);
               float (Item.height item)]]>
    (<[3%Z := [float (Item.depth item); float (Item.height item);
               float (Item.width item)]]>
    (<[2%Z := [float (Item.height item); float (Item.depth item);
               float (Item.width item)]]>
    (<[1%Z := [float (Item.height item); float (Item.width item);
               float (Item.depth item)]]>
    (<[0%Z := [float (Item.width item); float (Item.height item);
               float (Item.depth item)]]> ∅))))) in
  default [float (Item.width item); float (Item.height item);
           float (Item.depth item)]
          (rotation_map !! Item.rotation_type item).

(** The [if]/[elif] chain of [visualize_packing]: it has no [else], so the
    variable [size] keeps its previous binding ([None]: not bound yet) when
    no branch matches. *)
Definition visualize_packing_size (item : Item.t) (size : option (list Q))
  : option (list Q) :=
  if (Item.rotation_type item =? 0)%Z then
    Some [float (Item.width item); float (Item.height item);
          float (Item.depth item)]
  else if (Item.rotation_type item =? 1)%Z then
    Some [float (Item.height item); float (Item.width item);
          float (Item.depth item)]
  else if (Item.rotation_type item =? 2)%Z then
    Some [float (Item.height item); float (Item.depth item);
          float (Item.width item)]
  else if (Item.rotation_type item =? 3)%Z then
    Some [float (Item.depth item); float (Item.height item);
          float (Item.width item)]
  else if (Item.rotation_type item =? 4)%Z then
    Some [float (Item.depth item); float (Item.width item);
          float (Item.height item)]
  else if (Item.rotation_type item =? 5)%Z then
    Some [float (Item.width item); float (Item.depth item);
          float (Item.height item)]
  else size.

(** ** Definitions used to state the properties *)

(** The rotation table as section 3 of the specification prints it:
    index, then the resulting (width, height, depth). *)
Definition spec_rotation_table (r : Z) (w h d : Q) : option (list Q) :=
  match r with
  | 0%Z => Some [w; h; d]
  | 1%Z => Some [h; w; d]
  | 2%Z => Some [h; d; w]
  | 3%Z => Some [d; h; w]
  | 4%Z => Some [d; w; h]
  | 5%Z => Some [w; d; h]
  | _ => None
  end.

(** The methods of [PackingEngine] that change its state, and a session as
    the sequence of calls made on a fresh instance. *)
Inductive call : Type :=
  | AddContainer (container : Container.t)
  | AddItems (items : list CargoRecord)
  | Pack.

Definition exec (self : PackingEngine.t) (c : call) : PackingEngine.t :=
  match c with
  | AddContainer container => (PackingEngine.add_container self container).1
  | AddItems items => PackingEngine.add_items self items
  | Pack => PackingEngine.pack self
  end.

Definition session (calls : list call) : PackingEngine.t :=
  fold_left exec calls PackingEngine.__init__.

Definition is_pack (c : call) : bool :=
  match c with
  | Pack => true
  | _ => false
  end.

(** The unit items of one catalogue record as section 6 words them:
    [count] items with the record's dimensions and weight, named
    [name_0], [name_1], ... in ascending index order. *)
Definition unit_items (r : CargoRecord) : list Item.t :=
  map (fun i : Z =>
         Item.__init__ (cargo_name r +:+ "_" +:+ pretty i) (cargo_width r)
           (cargo_height r) (cargo_depth r) (cargo_weight r))
      (range (cargo_count r)).

(** The part of an identity in front of its first separator (the whole
    string when there is none). *)
Fixpoint before_first (sep : ascii) (s : string) : string :=
  match s with
  | EmptyString => EmptyString
  | String c s' =>
      if Ascii.eqb c sep then EmptyString else String c (before_first sep s')
  end.

Definition reported_name (item : Item.t) : string :=
  before_first "_" (Item.name item).

(** How many items of a list are reported under the name [k]. *)
Definition count_named (k : string) (its : list Item.t) : Z :=
  Z.of_nat (length (filter (fun item => reported_name item = k) its)).

Definition sum_values (stats : gmap string Z) : Z :=
  map_fold (fun _ v acc => (v + acc)%Z) 0%Z stats.

(** The tally that [get_unfitted_stats] builds, entry by entry. *)
Definition tally (its : list Item.t) (stats : gmap string Z)
  : gmap string Z :=
  fold_left
    (fun stats item =>
       <[reported_name item :=
           (default 0%Z (stats !! reported_name item) + 1)%Z]> stats)
    its stats.

(** Section 4.4, step 4: the sum of the placed items' intrinsic volumes over
    the container volume, times 100. *)
Definition spec_load_efficiency (packed : list Item.t) (W H D : Q) : Q :=
  fold_right Qplus 0 (map Item.get_volume packed) / (W * H * D) * 100.

(** Items that agree on their intrinsic dimensions, whatever rotation and
    position they carry. *)
Definition same_dimensions (a b : Item.t) : Prop :=
  Item.width a = Item.width b /\ Item.height a = Item.height b
  /\ Item.depth a = Item.depth b.



(** One complete use of the engine, as [ContainerPackingApp.pack_items]
    drives it. *)
Definition packing_run (container : Container.t) (items : list CargoRecord)
  : PackingEngine.t :=
  session [AddContainer container; AddItems items; Pack].

(** ** Section 4.4 as a relation *)

(** Modelled from the spec: the search order of section 4.4, step 3a:
    anchors in list order and, within an anchor, the rotations 0..5. *)
Definition candidates (anchors : list triple)
  : list (triple * RotationType) :=
  flat_map (fun a => map (pair a) RotationType.ALL) anchors.

(** Modelled from the spec: "the first (anchor, rotation) pair that passes
    all three checks", [None] when no pair passes. *)
Inductive first_passing (ok : triple * RotationType -> bool)
  : list (triple * RotationType) -> option (triple * RotationType) -> Prop :=
  | first_none : first_passing ok [] None
  | first_here p cands :
      ok p = true -> first_passing ok (p :: cands) (Some p)
  | first_later p cands o :
      ok p = false -> first_passing ok cands o ->
      first_passing ok (p :: cands) o.

(** Modelled from the spec: section 4.4, step 3 for one item: placed at
    the first pair that passes (3a), or marked unfitted with the engine
    state untouched (3b). *)
Inductive item_step (cdims : triple) (max_weight : Q)
  : Engine.run -> nat * Item.t -> Engine.run -> Prop :=
  | item_placed acc e anchor r :
      first_passing
        (fun p => Engine.passes cdims max_weight (Engine.st acc) e.2 p.1 p.2)
        (candidates (CandidatePoints.anchors (Engine.points (Engine.st acc))))
        (Some (anchor, r)) ->
      item_step cdims max_weight acc e
        (Engine.mk_run (Engine.place (Engine.st acc) e.2 anchor r)
           (Engine.packed_so_far acc ++ [Item.placed_at e.2 anchor r])
           (Engine.unfitted_so_far acc))
  | item_unfitted acc e :
      first_passing
        (fun p => Engine.passes cdims max_weight (Engine.st acc) e.2 p.1 p.2)
        (candidates (CandidatePoints.anchors (Engine.points (Engine.st acc))))
        None ->
      item_step cdims max_weight acc e
        (Engine.mk_run (Engine.st acc) (Engine.packed_so_far acc)
           (Engine.unfitted_so_far acc ++ [e.1])).

(** Modelled from the spec: section 4.4, step 3, "for each item, in sorted
    order". *)
Inductive items_run (cdims : triple) (max_weight : Q)
  : Engine.run -> list (nat * Item.t) -> Engine.run -> Prop :=
  | run_done acc : items_run cdims max_weight acc [] acc
  | run_next acc e acc' es final :
      item_step cdims max_weight acc e acc' ->
      items_run cdims max_weight acc' es final ->
      items_run cdims max_weight acc (e :: es) final.

(** Modelled from the spec: section 4.4, step 1 as a property: larger
    intrinsic volume first and, at equal volume, the earlier input position
    first. *)
Definition goes_before (e e' : nat * Item.t) : Prop :=
  Item.get_volume e'.2 < Item.get_volume e.2
  \/ (Item.get_volume e.2 == Item.get_volume e'.2 /\ (e.1 < e'.1)%nat).

(** Modelled from the spec: a sequence that is the input reordered by
    step 1. *)
Definition ordered_for_packing (items : list Item.t)
    (sorted : list (nat * Item.t)) : Prop :=
  Engine.indexed items ≡ₚ sorted /\ ForallOrdPairs goes_before sorted.

(** Modelled from the spec: section 4.4 read as a relation between the
    input and a result. *)
Inductive packs (cdims : triple) (max_weight : Q) (items : list Item.t)
  : Engine.PackingResult -> Prop :=
  | packs_intro sorted final :
      ordered_for_packing items sorted ->
      items_run cdims max_weight Engine.init_run sorted final ->
      packs cdims max_weight items
        (Engine.mk_result (Engine.packed_so_far final)
           (map snd (filter (Engine.is_unfitted (Engine.unfitted_so_far final))
                            (Engine.indexed items)))).

(** ** Segments and boxes, for the volume argument *)


Definition covers (x a b : Q) : bool := Qle_bool a x && Qlt_bool x b.



Definition trunc (t : Q) (s : triple) : triple :=
  (s.1.1, if Qle_bool s.1.2 t then s.1.2 else t, s.2).

Definition cut (t : Q) (l : list triple) : list triple :=
  map (trunc t) (filter (fun s : triple => Qlt_bool s.1.1 t = true) l).


(** Boxes: a position and a dimension triple. *)
Definition box : Type := triple * triple.






Definition over_x (x : Q) (b : box) : Prop :=
  covers x b.1.1.1 (b.1.1.1 + b.2.1.1) = true.

Definition over_y (y : Q) (b : box) : Prop :=
  covers y b.1.1.2 (b.1.1.2 + b.2.1.2) = true.

Definition over_z (z : Q) (b : box) : Prop :=
  covers z b.1.2 (b.1.2 + b.2.2) = true.

#[global] Instance over_x_dec (x : Q) (b : box) : Decision (over_x x b) :=
  _ : Decision (covers x _ _ = true).

#[global] Instance over_y_dec (y : Q) (b : box) : Decision (over_y y b) :=
  _ : Decision (covers y _ _ = true).

#[global] Instance over_z_dec (z : Q) (b : box) : Decision (over_z z b) :=
  _ : Decision (covers z _ _ = true).







(** ** Python runtime, continued: more exceptions, sets *)

(** [a % b] on non-negative ints: raises [ZeroDivisionError] when [b] is
    0. *)
Definition py_mod (a b : nat) : result nat :=
  if (b =? 0)%nat then Raise ZeroDivisionError else Ok (a mod b)%nat.

(** The builtin [max] of three numbers: the first of the largest. *)
Definition max3 (a b c : Q) : Q :=
  let m := if Qlt_bool a b then b else a in
  if Qlt_bool m c then c else m.

(** A [for] loop over a Python set visits every element once, in an order
    the language does not fix; [iteration] is that order. *)
Definition set_iteration (iteration : gset string -> list string) : Prop :=
  forall s : gset string,
    NoDup (iteration s) /\ forall x : string, x ∈ iteration s <-> x ∈ s.

(** Exceptions beyond the three of [exn] that the remaining modules can
    raise, and the result of code that may raise any of them. *)
Inductive pyexn : Type :=
  | Builtin (e : exn)
  | ValueError
  | AttributeError
  | NameError
  | TypeError.

Inductive outcome (A : Type) : Type :=
  | Return (a : A)
  | Throw (e : pyexn).
Arguments Return {A} a.
Arguments Throw {A} e.

#[global] Instance outcome_ret : MRet outcome := fun A a => Return a.
#[global] Instance outcome_bind : MBind outcome := fun A B k m =>
  match m with
  | Return a => k a
  | Throw e => Throw e
  end.

Definition lift {A} (r : result A) : outcome A :=
  match r with
  | Ok a => Return a
  | Raise e => Throw (Builtin e)
  end.

(** ** core/utils.py: ColorMapper and ResultPrinter *)

Module ColorMapper.
Record t : Type := mk {
  base_colors : gmap string string;
  available_colors : list string
}.

Definition __init__ : t :=
  mk (<["item6" := "#DDA0DD"]>
      (<["item5" := "#FECA57"]>
      (<["xlarge" := "#96CEB4"]>
      (<["large" := "#45B7D1"]>
      (<["medium" := "#4ECDC4"]>
      (<["small" := "#FF6B6B"]> ∅))))))
     ["#FF6B6B"; "#4ECDC4"; "#45B7D1"; "#96CEB4"; "#FECA57"; "#DDA0DD";
      "#FF9FF3"; "#54A0FF"; "#5F27CD"; "#00D2D3"; "#FF9F43"; "#10AC84";
      "#EE5A24"; "#A55EEA"; "#26DE81"; "#778CA3"; "#F8B500"; "#FC427B"].

(** One of the two loops that fill [all_item_names]. *)
Definition add_names (all_item_names : gset string) (items : list Item.t)
  : result (gset string) :=
  fold_left
    (fun names item =>
       names ← names;
       item_name ← getitem (split "_" (Item.name item)) 0;
       mret (names ∪ {[item_name]}))
    items (mret all_item_names).

(** The body of the loop that assigns colours; the state is
    [(color_map, color_index)]. *)
Definition assign_color (self : t) (st : result (gmap string string * nat))
    (item_name : string) : result (gmap string string * nat) :=
  '(color_map, color_index) ← st;
  match color_map !! item_name with
  | Some _ => mret (color_map, color_index)
  | None =>
      i ← py_mod color_index (length (available_colors self));
      color ← getitem (available_colors self) i;
      mret (<[item_name := color]> color_map, S color_index)
  end.

Definition generate_color_map (iteration : gset string -> list string)
    (self : t) (packed_items unfitted_items : list Item.t)
  : result (gmap string string) :=
  let color_map := base_colors self in
  all_item_names ← add_names ∅ packed_items;
  all_item_names ← add_names all_item_names unfitted_items;
  st ← fold_left (assign_color self) (iteration all_item_names)
         (mret (color_map, size (base_colors self)));
  mret st.1.
End ColorMapper.

Module ResultPrinter.
(** [print_results]: what it returns and what it may raise; the lines it
    prints are not modelled. *)
Definition print_results (container : Container.t)
    (packing_engine : PackingEngine.t) (color_map : gmap string string)
  : result Q :=
  _ ← PackingEngine.packed_items packing_engine;
  _ ← PackingEngine.unfitted_items packing_engine;
  efficiency ← PackingEngine.get_load_efficiency packing_engine container;
  _ ← PackingEngine.packed_items packing_engine;
  unfitted ← PackingEngine.unfitted_items packing_engine;
  _ ← match unfitted with
      | [] => mret ()
      | _ :: _ =>
          _ ← PackingEngine.get_unfitted_stats packing_engine;
          unfitted ← PackingEngine.unfitted_items packing_engine;
          fold_left
            (fun acc item =>
               _ ← acc;
               _ ← getitem (split "_" (Item.name item)) 0;
               mret ())
            unfitted (mret ())
      end;
  mret efficiency.
End ResultPrinter.

(** ** core/visualizer.py *)

Module PackingVisualizer.
(** What the visualizer asks matplotlib to draw: a line ([ax.plot3D] with
    style ['b-'] and line width 2) or a collection of polygons
    ([ax.add_collection3d(Poly3DCollection(...))], black edges of width
    0.5). *)
Inductive artist : Type :=
  | plot3D (p q : triple)
  | add_collection3d (vertices : list (list triple)) (alpha : Q)
      (facecolor : string).

(** The axes object, reduced to what the visualizer sets on it. *)
Record Axes : Type := mk_axes {
  artists : list artist;
  xlim : option (Q * Q);
  ylim : option (Q * Q);
  zlim : option (Q * Q);
  labels : option (string * string * string);
  box_aspect : option (list Q);
  view : option (Q * Q)
}.

(** [fig.add_subplot(111, projection='3d')]. *)
Definition add_subplot : Axes := mk_axes [] None None None None None None.

Definition add_artist (ax : Axes) (a : artist) : Axes :=
  mk_axes (artists ax ++ [a]) (xlim ax) (ylim ax) (zlim ax) (labels ax)
          (box_aspect ax) (view ax).

Record t : Type := mk {
  figsize : Q * Q;
  color_mapper : ColorMapper.t
}.

Definition __init__ : t := mk (12, 8) ColorMapper.__init__.

Definition _draw_container_frame (ax : Axes) (container : Container.t)
  : outcome Axes :=
  let '(width, height, depth) := Container.get_dimensions container in
  let vertices : list triple :=
    [(0, 0, 0); (width, 0, 0); (width, height, 0); (0, height, 0);
     (0, 0, depth); (width, 0, depth); (width, height, depth);
     (0, height, depth)] in
  let edges : list (nat * nat) :=
    [(0, 1); (1, 2); (2, 3); (3, 0);
     (4, 5); (5, 6); (6, 7); (7, 4);
     (0, 4); (1, 5); (2, 6); (3, 7)]%nat in
  fold_left
    (fun ax edge =>
       ax ← ax;
       p ← lift (getitem vertices edge.1);
       q ← lift (getitem vertices edge.2);
       mret (add_artist ax (plot3D p q)))
    edges (mret ax).

(** [_draw_cargo_box]; unpacking a [size] that does not have three elements
    is a [ValueError]. *)
Definition _draw_cargo_box (ax : Axes) (position : triple) (size : list Q)
    (color : string) (alpha : Q) : outcome Axes :=
  let '(x, y, z) := position in
  match size with
  | [w; h; d] =>
      let vertices : list (list triple) :=
        [[(x, y, z); (x + w, y, z); (x + w, y + h, z); (x, y + h, z)];
         [(x, y, z + d); (x + w, y, z + d); (x + w, y + h, z + d);
          (x, y + h, z + d)];
         [(x, y, z); (x, y, z + d); (x + w, y, z + d); (x + w, y, z)];
         [(x, y + h, z); (x, y + h, z + d); (x + w, y + h, z + d);
          (x + w, y + h, z)];
         [(x, y, z); (x, y, z + d); (x, y + h, z + d); (x, y + h, z)];
         [(x + w, y, z); (x + w, y, z + d); (x + w, y + h, z + d);
          (x + w, y + h, z)]] in
      mret (add_artist ax (add_collection3d vertices alpha color))
  | _ => Throw ValueError
  end.

Definition _draw_packed_items (ax : Axes) (packed_items : list Item.t)
    (color_map : gmap string string) : outcome Axes :=
  fold_left
    (fun ax item =>
       ax ← ax;
       item_name ← lift (getitem (split "_" (Item.name item)) 0);
       let color := default "#999999" (color_map !! item_name) in
       let size := get_rotated_dimensions item in
       let position :=
         (float (Item.position item).1.1, float (Item.position item).1.2,
          float (Item.position item).2) in
       _draw_cargo_box ax position size color 0.7)
    packed_items (mret ax).

Definition _setup_3d_plot (ax : Axes) (container : Container.t)
  : outcome Axes :=
  let '(width, height, depth) := Container.get_dimensions container in
  let max_dim := max3 (float width) (float height) (float depth) in
  aw ← lift (truediv (float width) max_dim);
  ah ← lift (truediv (float height) max_dim);
  ad ← lift (truediv (float depth) max_dim);
  mret (mk_axes (artists ax)
          (Some (0, float width)) (Some (0, float height))
          (Some (0, float depth))
          (Some ("X (m)", "Y (m)", "Z (m)"))
          (Some [aw; ah; ad])
          (Some (20, -60))).

Definition visualize (iteration : gset string -> list string) (self : t)
    (container : Container.t) (packing_engine : PackingEngine.t)
  : outcome Axes :=
  let ax := add_subplot in
  ax ← _draw_container_frame ax container;
  packed ← lift (PackingEngine.packed_items packing_engine);
  unfitted ← lift (PackingEngine.unfitted_items packing_engine);
  color_map ←
    lift (ColorMapper.generate_color_map iteration (color_mapper self)
            packed unfitted);
  packed ← lift (PackingEngine.packed_items packing_engine);
  ax ← _draw_packed_items ax packed color_map;
  _setup_3d_plot ax container.
End PackingVisualizer.

(** ** cargo_items.py *)

Module cargo_items.
(** A cell of the data frame as the loader uses it: its value as a name,
    and what [float] and [int] return for it ([None]: the conversion
    raises). As everywhere, a float is a rational: a cell that reads as NaN
    has no counterpart here. *)
Record cell : Type := mk_cell {
  value : string;
  as_float : option Q;
  as_int : option Z
}.

(** The data frame [pd.read_csv] returns: its column names and its rows. *)
Record DataFrame : Type := mk_frame {
  columns : list string;
  rows : list (gmap string cell)
}.

(** What the loader sees of a path under [sample_data]: [csv_path.exists()]
    and what [pd.read_csv] does with the file ([None]: it raises). *)
Record file : Type := mk_file {
  exists_ : bool;
  read_csv : option DataFrame
}.

(** How [_load_cargo_from_csv] ends: it returns a list, it returns [None]
    (after the [except Exception] branch printed), or a [NameError]
    escapes. *)
Inductive load_result : Type :=
  | Loaded (items : list CargoRecord)
  | ReturnedNone
  | RaisedNameError.

Definition required_columns_m : list string :=
  ["名前"; "幅(m)"; "高さ(m)"; "奥行き(m)"; "重量(kg)"; "個数"].

Definition required_columns_mm : list string :=
  ["名前"; "幅(mm)"; "高さ(mm)"; "奥行き(mm)"; "重量(g)"; "個数"].

(** One iteration of the loop over the rows; [None]: an exception
    ([KeyError], [ValueError], ...) that the [except] branch catches. *)
Definition row_m (row : gmap string cell) : option CargoRecord :=
  name ← row !! "名前";
  width ← row !! "幅(m)" ≫= as_float;
  height ← row !! "高さ(m)" ≫= as_float;
  depth ← row !! "奥行き(m)" ≫= as_float;
  weight ← row !! "重量(kg)" ≫= as_float;
  count ← row !! "個数" ≫= as_int;
  Some (mk_cargo (value name) width height depth weight count).

Definition row_mm (row : gmap string cell) : option CargoRecord :=
  name ← row !! "名前";
  width ← row !! "幅(mm)" ≫= as_float;
  height ← row !! "高さ(mm)" ≫= as_float;
  depth ← row !! "奥行き(mm)" ≫= as_float;
  weight ← row !! "重量(g)" ≫= as_float;
  count ← row !! "個数" ≫= as_int;
  Some (mk_cargo (value name) (width / 1000) (height / 1000) (depth / 1000)
          (weight / 1000) count).

Definition has_columns (required : list string) (df : DataFrame) : bool :=
  forallb (fun col => bool_decide (col ∈ columns df)) required.

(** [_load_cargo_from_csv]; [sample_data] is the directory next to the
    module. The name [_get_default_items] is bound nowhere in the module,
    and when neither column set is present [items] is never assigned, so
    [return items] raises inside the [try]. *)
Definition _load_cargo_from_csv (sample_data : string -> file)
    (filename : string) : load_result :=
  let csv_path := sample_data filename in
  if negb (exists_ csv_path) then RaisedNameError
  else
    match read_csv csv_path with
    | None => ReturnedNone
    | Some df =>
        if has_columns required_columns_m df then
          match mapM row_m (rows df) with
          | Some items => Loaded items
          | None => ReturnedNone
          end
        else if has_columns required_columns_mm df then
          match mapM row_mm (rows df) with
          | Some items => Loaded items
          | None => ReturnedNone
          end
        else ReturnedNone
    end.

Definition create_cargo_items (sample_data : string -> file) : load_result :=
  _load_cargo_from_csv sample_data "color_cargo_items.csv".

Definition create_test_cargo_items (sample_data : string -> file)
  : load_result :=
  _load_cargo_from_csv sample_data "test_cargo_items.csv".

Definition create_japanese_cargo_items (sample_data : string -> file)
  : load_result :=
  _load_cargo_from_csv sample_data "japanese_cargo_items.csv".
End cargo_items.

(** ** main_class.py *)

Module ContainerPackingApp.
Record t : Type := mk {
  results_dir : string;
  container : option Container.t;
  packing_engine : option PackingEngine.t;
  visualizer : PackingVisualizer.t;
  color_mapper : ColorMapper.t
}.

(** [ContainerPackingApp(results_dir)]; creating the directory is not
    modelled. *)
Definition __init__ (results_dir : string) : t :=
  mk results_dir None None PackingVisualizer.__init__ ColorMapper.__init__.

Definition setup_container (self : t) (width height depth max_weight : Q)
  : t :=
  mk (results_dir self)
     (Some (Container.__init__ "Container" width height depth max_weight))
     (packing_engine self) (visualizer self) (color_mapper self).

Definition pack_items (self : t) (items : list CargoRecord) : outcome t :=
  match container self with
  | None =>
      Throw (Builtin (RuntimeError
                        "Container not set up. Call setup_container() first."))
  | Some c =>
      let '(engine, c') :=
        PackingEngine.add_container PackingEngine.__init__ c in
      mret (mk (results_dir self) (Some c')
              (Some (PackingEngine.pack (PackingEngine.add_items engine items)))
              (visualizer self) (color_mapper self))
  end.

(** [visualize_results] and [print_results] test [self.packing_engine]
    only; a missing container then shows as the [AttributeError] of the
    first attribute access on [None]. *)
Definition visualize_results (iteration : gset string -> list string)
    (self : t) : outcome PackingVisualizer.Axes :=
  match packing_engine self with
  | None =>
      Throw (Builtin
               (RuntimeError
                  "No packing results to visualize. Call pack_items() first."))
  | Some engine =>
      match container self with
      | None => Throw AttributeError
      | Some c =>
          PackingVisualizer.visualize iteration (visualizer self) c engine
      end
  end.

Definition print_results (iteration : gset string -> list string)
    (self : t) : outcome Q :=
  match packing_engine self with
  | None =>
      Throw (Builtin
               (RuntimeError
                  "No packing results to print. Call pack_items() first."))
  | Some engine =>
      packed ← lift (PackingEngine.packed_items engine);
      unfitted ← lift (PackingEngine.unfitted_items engine);
      color_map ←
        lift (ColorMapper.generate_color_map iteration (color_mapper self)
                packed unfitted);
      match container self with
      | None => Throw AttributeError
      | Some c => lift (ResultPrinter.print_results c engine color_map)
      end
  end.

(** The keyword arguments of [run]'s [container_dims]: a key that is
    absent leaves [setup_container]'s default in place. *)
Record container_dims : Type := mk_dims {
  dims_width : option Q;
  dims_height : option Q;
  dims_depth : option Q;
  dims_max_weight : option Q
}.

(** [load_items]. *)
Definition load_items (sample_data : string -> cargo_items.file)
    (item_set : string) : cargo_items.load_result :=
  if decide (item_set = "japanese") then
    cargo_items.create_japanese_cargo_items sample_data
  else if decide (item_set = "test") then
    cargo_items.create_test_cargo_items sample_data
  else cargo_items.create_cargo_items sample_data.

(** [run] up to the point where it has the figure; it returns the
    application, the efficiency it printed and the axes it drew. Giving the
    figure a title, saving and showing it are not modelled. When the loader
    returned [None], the loop of [add_items] over it is a [TypeError]. *)
Definition run (iteration : gset string -> list string)
    (sample_data : string -> cargo_items.file) (self : t)
    (dims : container_dims) (item_set : string)
  : outcome (t * Q * PackingVisualizer.Axes) :=
  let self :=
    setup_container self (default 12.03 (dims_width dims))
      (default 2.39 (dims_height dims)) (default 2.35 (dims_depth dims))
      (default 28000 (dims_max_weight dims)) in
  match load_items sample_data item_set with
  | cargo_items.RaisedNameError => Throw NameError
  | cargo_items.ReturnedNone => Throw TypeError
  | cargo_items.Loaded items =>
      self ← pack_items self items;
      efficiency ← print_results iteration self;
      ax ← visualize_results iteration self;
      mret (self, efficiency, ax)
  end.
End ContainerPackingApp.

(** ** main.py and container_only.py: the scripts *)

Module main.

(** The packer of the script after [packer.pack()]. *)
Definition packer (items : list CargoRecord) (container : Bin.t)
  : Packer.t :=
  let packer := Packer.add_bin Packer.__init__ container in
  let packer :=
    fold_left
      (fun packer item =>
         fold_left
           (fun packer i =>
              Packer.add_item packer
                (Item.__init__ (cargo_name item +:+ "_" +:+ pretty i)
                   (cargo_width item) (cargo_height item) (cargo_depth item)
                   (cargo_weight item)))
           (range (cargo_count item)) packer)
      items packer in
  Packer.pack packer.

End main.

Module container_only.
Definition pack_items (container : Bin.t) (items : list CargoRecord)
  : Packer.t :=
  let packer := Packer.add_bin Packer.__init__ container in
  let packer :=
    fold_left
      (fun packer item =>
         fold_left
           (fun packer i =>
              Packer.add_item packer
                (Item.__init__ (cargo_name item +:+ "_" +:+ pretty i)
                   (cargo_width item) (cargo_height item) (cargo_depth item)
                   (cargo_weight item)))
           (range (cargo_count item)) packer)
      items packer in
  Packer.pack packer.

(** [print_packing_results]: its return value; printing is not modelled.
    The first statement that reads [packer.bins[0]] decides whether it
    raises. *)
Definition print_packing_results (container : Bin.t) (packer : Packer.t)
  : result Q :=
  b ← getitem (Packer.bins packer) 0;
  let total_container_volume :=
    float (Bin.width container * Bin.height container * Bin.depth container) in
  let used_volume :=
    sum (map (fun item =>
                float (Item.width item * Item.height item * Item.depth item))
             (Bin.items b)) in
  r ← truediv used_volume total_container_volume;
  mret (r * 100).
End container_only.


(** ** Definitions used to state the further properties *)

Definition is_add_container (c : call) : bool :=
  match c with
  | AddContainer _ => true
  | _ => false
  end.

(** The names under which a list of items is reported. *)
Definition reported_names (items : list Item.t) : gset string :=
  list_to_set (map reported_name items).

(** The reported names that [base_colors] does not know. *)
Definition unknown_names (self : ColorMapper.t) (items : list Item.t)
  : gset string :=
  filter (fun n => ColorMapper.base_colors self !! n = None)
         (reported_names items).

(** The colour at position [i] of the palette, counted cyclically. *)
Definition color_at (self : ColorMapper.t) (i : nat) : string :=
  default "" (ColorMapper.available_colors self
              !! (i mod length (ColorMapper.available_colors self))%nat).

(** The colour loop without its error cases. *)
Definition assign_pure (self : ColorMapper.t) (st : gmap string string * nat)
    (item_name : string) : gmap string string * nat :=
  match st.1 !! item_name with
  | Some _ => st
  | None => (<[item_name := color_at self st.2]> st.1, S st.2)
  end.

(** The names of a list that a colour map does not know yet, in list
    order. *)
Definition fresh_names (m : gmap string string) (ns : list string)
  : list string :=
  filter (fun n => m !! n = None) ns.

(** The keys of the default [base_colors], in the order of the dict
    literal. *)
Definition default_base_names : list string :=
  ["small"; "medium"; "large"; "xlarge"; "item5"; "item6"].

(** Thirteen items with thirteen different names, none of them a key of
    the default [base_colors]. *)
Definition thirteen_crates : list Item.t :=
  map (fun i : Z => Item.__init__ ("c" +:+ pretty i +:+ "_0") 1 1 1 1)
      (range 13).


(** A corner of the box between [lo] and [hi]: one bit for each axis says
    whether the corner is at the low or at the high end. *)
Definition bits : Type := bool * bool * bool.

Definition corner (lo hi : triple) (b : bits) : triple :=
  (if b.1.1 then hi.1.1 else lo.1.1,
   if b.1.2 then hi.1.2 else lo.1.2,
   if b.2 then hi.2 else lo.2).

(** Two corners are joined by an edge of the box when they differ on
    exactly one axis. *)
Definition adjacent (b b' : bits) : bool :=
  (Nat.b2n (xorb b.1.1 b'.1.1) + Nat.b2n (xorb b.1.2 b'.1.2)
   + Nat.b2n (xorb b.2 b'.2) =? 1)%nat.

Definition reversed (e : bits * bits) : bits * bits := (e.2, e.1).

Inductive axis : Type := AxisX | AxisY | AxisZ.

Definition bit_on (a : axis) (b : bits) : bool :=
  match a with
  | AxisX => b.1.1
  | AxisY => b.1.2
  | AxisZ => b.2
  end.

(** The corners of [face] all lie on the side of the box where axis [a]
    is at its low ([v = false]) or high ([v = true]) end. *)
Definition on_side (a : axis) (v : bool) (face : list bits) : bool :=
  forallb (fun b => Bool.eqb (bit_on a b) v) face.

(** Four different corners, each joined to the next and the last to the
    first by an edge: the outline of a rectangle. *)
Definition circuit (face : list bits) : bool :=
  match face with
  | [a; b; c; d] =>
      adjacent a b && adjacent b c && adjacent c d && adjacent d a
      && bool_decide (NoDup face)
  | _ => false
  end.

(** The axes after the artists of [l] have been added, in order. *)
Definition draw (ax : PackingVisualizer.Axes)
    (l : list PackingVisualizer.artist) : PackingVisualizer.Axes :=
  fold_left PackingVisualizer.add_artist l ax.

Definition is_line (a : PackingVisualizer.artist) : bool :=
  match a with
  | PackingVisualizer.plot3D _ _ => true
  | _ => false
  end.

(** The position of an item as [_draw_packed_items] passes it on. *)
Definition drawn_position (item : Item.t) : triple :=
  (float (Item.position item).1.1, float (Item.position item).1.2,
   float (Item.position item).2).

(** The twelve edges of a box, in the order in which
    [_draw_container_frame] draws them. *)
Definition box_edges : list (bits * bits) :=
  [((false, false, false), (true, false, false));
   ((true, false, false), (true, true, false));
   ((true, true, false), (false, true, false));
   ((false, true, false), (false, false, false));
   ((false, false, true), (true, false, true));
   ((true, false, true), (true, true, true));
   ((true, true, true), (false, true, true));
   ((false, true, true), (false, false, true));
   ((false, false, false), (false, false, true));
   ((true, false, false), (true, false, true));
   ((true, true, false), (true, true, true));
   ((false, true, false), (false, true, true))].

(** The six sides of a box, in the order in which [_draw_cargo_box] lists
    them. *)
Definition box_faces : list (list bits) :=
  [[(false, false, false); (true, false, false); (true, true, false);
    (false, true, false)];
   [(false, false, true); (true, false, true); (true, true, true);
    (false, true, true)];
   [(false, false, false); (false, false, true); (true, false, true);
    (true, false, false)];
   [(false, true, false); (false, true, true); (true, true, true);
    (true, true, false)];
   [(false, false, false); (false, false, true); (false, true, true);
    (false, true, false)];
   [(true, false, false); (true, false, true); (true, true, true);
    (true, true, false)]].

(** A data frame in the metre format with one row: two crates of
    1 x 1 x 1 m and 10 kg. *)
Definition one_crate_frame : cargo_items.DataFrame :=
  cargo_items.mk_frame cargo_items.required_columns_m
    [<["名前" := cargo_items.mk_cell "crate" None None]>
     (<["幅(m)" := cargo_items.mk_cell "1.0" (Some 1) (Some 1%Z)]>
     (<["高さ(m)" := cargo_items.mk_cell "1.0" (Some 1) (Some 1%Z)]>
     (<["奥行き(m)" := cargo_items.mk_cell "1.0" (Some 1) (Some 1%Z)]>
     (<["重量(kg)" := cargo_items.mk_cell "10" (Some 10) (Some 10%Z)]>
     (<["個数" := cargo_items.mk_cell "2" (Some 2) (Some 2%Z)]> ∅)))))].

(** A [sample_data] directory in which every file is [one_crate_frame]. *)
Definition one_crate_files (filename : string) : cargo_items.file :=
  cargo_items.mk_file true (Some one_crate_frame).

(** One step of the exception monad on a result that is there. *)
Ltac step_return :=
  repeat (progress (change (Return ?a ≫= ?k) with (k a); cbn beta)).

(** ** Rotation table *)

Lemma rotated_dimensions_lookup (item : Item.t) (r : Z) :
  Item.rotation_type item = r ->
  (0 <= r <= 5)%Z ->
  Some (get_rotated_dimensions item)
  = spec_rotation_table r (Item.width item) (Item.height item)
                        (Item.depth item).
Proof.
  intros Hr Hrange. unfold get_rotated_dimensions. rewrite Hr.
  assert (Hcases : r = 0%Z \/ r = 1%Z \/ r = 2%Z \/ r = 3%Z \/ r = 4%Z
                   \/ r = 5%Z) by lia.
  destruct Hcases as [-> | [-> | [-> | [-> | [-> | ->]]]]];
    by simplify_map_eq.
Qed.

Lemma visualize_size_lookup (item : Item.t) (r : Z) (size : option (list Q)) :
  Item.rotation_type item = r ->
  (0 <= r <= 5)%Z ->
  visualize_packing_size item size
  = spec_rotation_table r (Item.width item) (Item.height item)
                        (Item.depth item).
Proof.
  intros Hr Hrange. unfold visualize_packing_size. rewrite Hr.
  assert (Hcases : r = 0%Z \/ r = 1%Z \/ r = 2%Z \/ r = 3%Z \/ r = 4%Z
                   \/ r = 5%Z) by lia.
  destruct Hcases as [-> | [-> | [-> | [-> | [-> | ->]]]]]; reflexivity.
Qed.

(** The box the engine placed is the one the visualizer rebuilds from the
    stored index. *)
Lemma placed_item_dimensions (item : Item.t) (p : triple) (r : RotationType) :
  get_rotated_dimensions (Item.placed_at item p r)
  = let '(a, b, c) := Item.get_dimension item r in [a; b; c].
Proof.
  unfold get_rotated_dimensions. destruct r; simpl; by simplify_map_eq.
Qed.

(** C1. For an item whose rotation index is one of 0..5, both consumers of
    the index, [get_rotated_dimensions] and the chain in
    [visualize_packing], return the permutation of (width, height, depth)
    that the table of section 3 lists for that index. *)
Theorem rotation_table_contract (item : Item.t) (size : option (list Q)) :
  (0 <= Item.rotation_type item <= 5)%Z ->
  Some (get_rotated_dimensions item)
  = spec_rotation_table (Item.rotation_type item) (Item.width item)
                        (Item.height item) (Item.depth item)
  /\ visualize_packing_size item size
     = spec_rotation_table (Item.rotation_type item) (Item.width item)
                           (Item.height item) (Item.depth item).
Proof.
  intros Hrange. split.
  - by apply rotated_dimensions_lookup.
  - by apply visualize_size_lookup.
Qed.

Lemma rotation_table_contract_witness :
  let item := Item.mk "box_0" 3 4 5 1 2 (0, 0, 0) in
  Some (get_rotated_dimensions item) = Some [4; 5; 3]
  /\ visualize_packing_size item None = Some [4; 5; 3].
Proof.
  intros item.
  apply (rotation_table_contract item None). simpl. lia.
Defined.

Lemma rotation_map_miss (item : Item.t) :
  ~ (0 <= Item.rotation_type item <= 5)%Z ->
  get_rotated_dimensions item
  = [Item.width item; Item.height item; Item.depth item].
Proof.
  intros Hout. unfold get_rotated_dimensions.
  rewrite !lookup_insert_ne by lia. by rewrite lookup_empty.
Qed.

(** C10. Outside 0..5 the lookup in [rotation_map] misses and
    [get_rotated_dimensions] returns the default, the unrotated
    [width, height, depth]; it returns a list for every index. *)
Theorem rotated_dimensions_default (item : Item.t) :
  ~ (0 <= Item.rotation_type item <= 5)%Z ->
  get_rotated_dimensions item
  = [float (Item.width item); float (Item.height item);
     float (Item.depth item)].
Proof.
  intros Hout. unfold get_rotated_dimensions, float.
  rewrite !lookup_insert_ne by lia.
  by rewrite lookup_empty.
Qed.

Lemma rotated_dimensions_default_witness :
  get_rotated_dimensions (Item.mk "box_0" 3 4 5 1 7 (0, 0, 0)) = [3; 4; 5].
Proof.
  apply (rotated_dimensions_default (Item.mk "box_0" 3 4 5 1 7 (0, 0, 0))).
  simpl. lia.
Defined.

(** ** The [_packed] flag *)

Lemma add_items_packed (self : PackingEngine.t) (items : list CargoRecord) :
  PackingEngine._packed (PackingEngine.add_items self items)
  = PackingEngine._packed self.
Proof.
  unfold PackingEngine.add_items. revert self.
  induction items as [| item items IH]; intros self; [done |].
  simpl. rewrite IH. clear IH.
  generalize (range (cargo_count item)). intros ixs. revert self.
  induction ixs as [| i ixs IH]; intros self; [done |].
  simpl. by rewrite IH.
Qed.

Lemma exec_packed (self : PackingEngine.t) (c : call) :
  PackingEngine._packed (exec self c)
  = PackingEngine._packed self || is_pack c.
Proof.
  destruct c as [container | items |]; simpl.
  - unfold PackingEngine.add_container.
    destruct (Container.bin container) as [b container']. simpl.
    by rewrite orb_false_r.
  - by rewrite add_items_packed, orb_false_r.
  - by rewrite orb_true_r.
Qed.

Lemma fold_exec_packed (calls : list call) (self : PackingEngine.t) :
  PackingEngine._packed (fold_left exec calls self)
  = PackingEngine._packed self || existsb is_pack calls.
Proof.
  revert self. induction calls as [| c calls IH]; intros self; simpl.
  - by rewrite orb_false_r.
  - by rewrite IH, exec_packed, orb_assoc.
Qed.

Lemma session_packed (calls : list call) :
  PackingEngine._packed (session calls) = existsb is_pack calls.
Proof. unfold session. by rewrite fold_exec_packed. Qed.

Lemma getitem_head {A} (l : list A) :
  (0 <? length l)%nat = true -> exists a, getitem l 0 = Ok a.
Proof.
  destruct l as [| a l]; simpl; [done |]. intros _. by exists a.
Qed.

Lemma packed_items_ok (self : PackingEngine.t) :
  PackingEngine._packed self = true ->
  exists l, PackingEngine.packed_items self = Ok l.
Proof.
  intros Hp. unfold PackingEngine.packed_items. rewrite Hp. simpl.
  destruct (0 <? length _)%nat eqn:Hlen; [| by eexists].
  destruct (getitem_head _ Hlen) as [b ->]. by eexists.
Qed.

Lemma unfitted_items_ok (self : PackingEngine.t) :
  PackingEngine._packed self = true ->
  exists l, PackingEngine.unfitted_items self = Ok l.
Proof.
  intros Hp. unfold PackingEngine.unfitted_items. rewrite Hp. simpl.
  destruct (0 <? length _)%nat eqn:Hlen; [| by eexists].
  destruct (getitem_head _ Hlen) as [b ->]. by eexists.
Qed.

(** C9. On an engine that has only seen [add_container] and [add_items],
    [packed_items] and [unfitted_items] raise [RuntimeError] while
    [get_load_efficiency] returns 0.0; as soon as the session contains a
    [pack()] call, both properties return a list. *)
Theorem packed_flag_guards_results (calls : list call) :
  (existsb is_pack calls = false ->
     PackingEngine.packed_items (session calls)
     = Raise PackingEngine.not_packed_yet
     /\ PackingEngine.unfitted_items (session calls)
        = Raise PackingEngine.not_packed_yet
     /\ forall container,
          PackingEngine.get_load_efficiency (session calls) container = Ok 0)
  /\ (existsb is_pack calls = true ->
        (exists l, PackingEngine.packed_items (session calls) = Ok l)
        /\ (exists l, PackingEngine.unfitted_items (session calls) = Ok l)).
Proof.
  split; intros Hcalls.
  - unfold PackingEngine.packed_items, PackingEngine.unfitted_items,
      PackingEngine.get_load_efficiency.
    by rewrite session_packed, Hcalls.
  - split.
    + apply packed_items_ok. by rewrite session_packed.
    + apply unfitted_items_ok. by rewrite session_packed.
Qed.

Lemma packed_flag_guards_results_witness :
  let container := Container.__init__ "Container" 100 100 100 1000 in
  let items := [mk_cargo "cube" 50 50 50 100 2] in
  (PackingEngine.packed_items (session [AddContainer container; AddItems items])
   = Raise PackingEngine.not_packed_yet
   /\ PackingEngine.get_load_efficiency
        (session [AddContainer container; AddItems items]) container = Ok 0)
  /\ (exists l,
        PackingEngine.packed_items
          (session [AddContainer container; AddItems items; Pack]) = Ok l).
Proof.
  intros container items. split.
  - destruct (packed_flag_guards_results
                [AddContainer container; AddItems items]) as [Hno _].
    destruct (Hno eq_refl) as (Hp & _ & He). split; [exact Hp | apply He].
  - destruct (packed_flag_guards_results
                [AddContainer container; AddItems items; Pack]) as [_ Hyes].
    destruct (Hyes eq_refl) as [Hp _]. exact Hp.
Defined.

(** ** Expansion of the item catalogue *)

Lemma add_unit_items (r : CargoRecord) (ixs : list Z) (self : PackingEngine.t) :
  fold_left
    (fun self i =>
       PackingEngine.mk
         (Packer.add_item (PackingEngine.packer self)
            (Item.__init__ (PackingEngine.item_id (cargo_name r) i)
               (cargo_width r) (cargo_height r) (cargo_depth r)
               (cargo_weight r)))
         (PackingEngine._packed self))
    ixs self
  = PackingEngine.mk
      (Packer.mk (Packer.bins (PackingEngine.packer self))
         (Packer.items (PackingEngine.packer self)
          ++ map (fun i : Z =>
                    Item.__init__ (cargo_name r +:+ "_" +:+ pretty i)
                      (cargo_width r) (cargo_height r) (cargo_depth r)
                      (cargo_weight r)) ixs))
      (PackingEngine._packed self).
Proof.
  revert self. induction ixs as [| i ixs IH]; intros [[bins items] packed].
  - simpl. by rewrite app_nil_r.
  - simpl. rewrite IH. simpl. by rewrite <- app_assoc.
Qed.

Lemma add_items_unfold (self : PackingEngine.t) (items : list CargoRecord) :
  PackingEngine.add_items self items
  = PackingEngine.mk
      (Packer.mk (Packer.bins (PackingEngine.packer self))
         (Packer.items (PackingEngine.packer self)
          ++ concat (map unit_items items)))
      (PackingEngine._packed self).
Proof.
  unfold PackingEngine.add_items. revert self.
  induction items as [| r items IH]; intros [[bins its] packed].
  - simpl. by rewrite app_nil_r.
  - simpl. rewrite add_unit_items, IH. simpl.
    unfold unit_items at 2. by rewrite <- app_assoc.
Qed.

Lemma range_length (n : Z) : length (range n) = Z.to_nat n.
Proof. unfold range. by rewrite length_map, length_seq. Qed.

Lemma range_lookup (n : Z) (k : nat) :
  (k < Z.to_nat n)%nat -> range n !! k = Some (Z.of_nat k).
Proof.
  intros Hk. unfold range. rewrite list_lookup_fmap.
  by rewrite lookup_seq_lt.
Qed.

Lemma range_NoDup (n : Z) : NoDup (range n).
Proof.
  unfold range. apply (NoDup_fmap_2 Z.of_nat). apply NoDup_seq.
Qed.

Lemma item_id_inj (name : string) : Inj (=) (=) (fun i : Z => name +:+ "_" +:+ pretty i).
Proof.
  intros i j Hij. apply String.app_inj in Hij. apply String.app_inj in Hij.
  by apply (inj pretty).
Qed.

(** C5. [add_items] appends to the packer's items the unit items of every
    record, record after record in input order; a record with count [n]
    yields exactly [n] items, the [k]-th of which is named [name_k] and
    carries the record's width, height, depth and weight, and these names
    are pairwise distinct. *)
Theorem add_items_expands_catalog (self : PackingEngine.t)
    (items : list CargoRecord) :
  Packer.items (PackingEngine.packer (PackingEngine.add_items self items))
  = Packer.items (PackingEngine.packer self) ++ concat (map unit_items items)
  /\ forall r : CargoRecord,
       length (unit_items r) = Z.to_nat (cargo_count r)
       /\ NoDup (map Item.name (unit_items r))
       /\ forall k : nat,
            (k < Z.to_nat (cargo_count r))%nat ->
            unit_items r !! k
            = Some (Item.__init__
                      (cargo_name r +:+ "_" +:+ pretty (Z.of_nat k))
                      (cargo_width r) (cargo_height r) (cargo_depth r)
                      (cargo_weight r)).
Proof.
  split.
  - by rewrite add_items_unfold.
  - intros r. unfold unit_items. split; [| split].
    + by rewrite length_map, range_length.
    + rewrite map_map. simpl.
      apply (NoDup_fmap_2 _ (Inj0 := item_id_inj (cargo_name r))).
      apply range_NoDup.
    + intros k Hk.
      change (map ?f ?l !! k) with ((f <$> l) !! k).
      rewrite list_lookup_fmap. by rewrite range_lookup.
Qed.

Lemma add_items_expands_catalog_witness :
  map Item.name
    (Packer.items
       (PackingEngine.packer
          (PackingEngine.add_items PackingEngine.__init__
             [mk_cargo "small" 1 2 3 4 2; mk_cargo "large" 5 6 7 8 1])))
  = ["small_0"; "small_1"; "large_0"]
  /\ unit_items (mk_cargo "small" 1 2 3 4 2) !! 1%nat
     = Some (Item.__init__ "small_1" 1 2 3 4).
Proof.
  destruct (add_items_expands_catalog PackingEngine.__init__
              [mk_cargo "small" 1 2 3 4 2; mk_cargo "large" 5 6 7 8 1])
    as [Hitems Hrecord].
  split.
  - rewrite Hitems. reflexivity.
  - destruct (Hrecord (mk_cargo "small" 1 2 3 4 2)) as (_ & _ & Hk).
    apply (Hk 1%nat). simpl. lia.
Defined.

(** ** Unfitted items by name *)

Lemma split_head (sep : ascii) (s : string) :
  getitem (split sep s) 0 = Ok (before_first sep s).
Proof.
  induction s as [| c s IH]; simpl; [done |].
  destruct (Ascii.eqb c sep); [done |].
  destruct (split sep s) as [| w ws]; [done |].
  simpl in *. by injection IH as ->.
Qed.

Lemma stats_fold_tally (its : list Item.t) (stats : gmap string Z) :
  fold_left
    (fun (stats : result (gmap string Z)) item =>
       stats ← stats;
       item_name ← getitem (split "_" (Item.name item)) 0;
       mret (<[item_name := (default 0%Z (stats !! item_name) + 1)%Z]> stats))
    its (Ok stats)
  = Ok (tally its stats).
Proof.
  revert stats. induction its as [| item its IH]; intros stats; [done |].
  simpl. rewrite split_head. simpl. apply IH.
Qed.

Lemma count_named_cons (k : string) (item : Item.t) (its : list Item.t) :
  count_named k (item :: its)
  = ((if decide (reported_name item = k) then 1 else 0) + count_named k its)%Z.
Proof.
  unfold count_named. rewrite filter_cons.
  destruct (decide (reported_name item = k)); simpl; lia.
Qed.

Lemma count_named_nonneg k its : (0 <= count_named k its)%Z.
Proof. unfold count_named. lia. Qed.

Lemma tally_lookup (its : list Item.t) (stats : gmap string Z) (k : string) :
  default 0%Z (tally its stats !! k)
  = (default 0%Z (stats !! k) + count_named k its)%Z.
Proof.
  revert stats. induction its as [| item its IH]; intros stats.
  - simpl. unfold count_named. simpl. lia.
  - simpl. rewrite IH, count_named_cons.
    destruct (decide (reported_name item = k)) as [-> | Hne].
    + rewrite lookup_insert_eq. simpl. lia.
    + rewrite lookup_insert_ne by done. lia.
Qed.

Lemma tally_is_Some (its : list Item.t) (stats : gmap string Z) (k : string) :
  is_Some (tally its stats !! k)
  <-> is_Some (stats !! k) \/ exists item, item ∈ its /\ reported_name item = k.
Proof.
  revert stats. induction its as [| item its IH]; intros stats.
  - simpl. split; [by left |]. intros [H | (item & Hin & _)]; [done |].
    by apply elem_of_nil in Hin.
  - simpl. rewrite IH. rewrite lookup_insert_is_Some.
    split.
    + intros [[Hk | [_ H]] | (item' & Hin & Hk)].
      * right. exists item. split; [left | done].
      * by left.
      * right. exists item'. split; [by right | done].
    + intros [H | (item' & Hin & Hk)].
      * left. destruct (decide (reported_name item = k)); [by left | by right].
      * apply elem_of_cons in Hin as [-> | Hin].
        -- left. by left.
        -- right. by exists item'.
Qed.

Lemma sum_values_insert (stats : gmap string Z) (k : string) (v : Z) :
  sum_values (<[k := v]> stats)
  = (sum_values stats - default 0%Z (stats !! k) + v)%Z.
Proof.
  unfold sum_values.
  assert (Hcomm : forall (m : gmap string Z), forall (j1 j2 : string) (z1 z2 y : Z),
             j1 <> j2 -> m !! j1 = Some z1 -> m !! j2 = Some z2 ->
             (z1 + (z2 + y) = z2 + (z1 + y))%Z) by (intros; lia).
  destruct (stats !! k) as [v0 |] eqn:Hk.
  - rewrite <- (insert_delete_eq stats k v).
    rewrite <- (insert_delete_id stats k v0) at 2 by done.
    rewrite !map_fold_insert_L; try apply lookup_delete_eq; try apply Hcomm.
    simpl. lia.
  - rewrite map_fold_insert_L; [simpl; lia | apply Hcomm | done].
Qed.

Lemma sum_values_tally (its : list Item.t) (stats : gmap string Z) :
  sum_values (tally its stats)
  = (sum_values stats + Z.of_nat (length its))%Z.
Proof.
  revert stats. induction its as [| item its IH]; intros stats.
  - simpl. lia.
  - simpl tally. rewrite IH, sum_values_insert. simpl length. lia.
Qed.

Lemma before_first_generated (sep : ascii) (name rest : string) :
  before_first sep (name +:+ String sep rest) = before_first sep name.
Proof.
  induction name as [| c name IH]; simpl.
  - by rewrite Ascii.eqb_refl.
  - destruct (Ascii.eqb c sep); [done |]. by rewrite IH.
Qed.

(** The name under which a generated unit item is reported is the record's
    name up to its first underscore. *)
Lemma reported_name_unit_item (r : CargoRecord) (item : Item.t) :
  item ∈ unit_items r ->
  reported_name item = before_first "_" (cargo_name r).
Proof.
  unfold unit_items. intros Hin.
  change (map ?f ?l) with (f <$> l) in Hin.
  apply list_elem_of_fmap in Hin as (i & -> & _).
  unfold reported_name. simpl. apply before_first_generated.
Qed.

(** C6. After a packing run [get_unfitted_stats] returns a mapping whose
    keys are exactly the names (identity up to the first underscore) of the
    unfitted items, each mapped to the number of unfitted items with that
    name; the values add up to the number of unfitted items. *)
Theorem unfitted_stats_count_by_name (self : PackingEngine.t)
    (its : list Item.t) :
  PackingEngine.unfitted_items self = Ok its ->
  exists stats : gmap string Z,
    PackingEngine.get_unfitted_stats self = Ok stats
    /\ (forall k : string,
          is_Some (stats !! k)
          <-> exists item, item ∈ its /\ reported_name item = k)
    /\ (forall (k : string) (n : Z),
          stats !! k = Some n -> n = count_named k its)
    /\ sum_values stats = Z.of_nat (length its).
Proof.
  intros Hits. exists (tally its ∅).
  split; [| split; [| split]].
  - unfold PackingEngine.get_unfitted_stats. rewrite Hits. simpl.
    apply stats_fold_tally.
  - intros k. rewrite tally_is_Some, lookup_empty.
    split; [| by right]. intros [[? Hnone] | H]; [done | exact H].
  - intros k n Hk.
    pose proof (tally_lookup its ∅ k) as Hl.
    rewrite Hk, lookup_empty in Hl. simpl in Hl. lia.
  - rewrite sum_values_tally. unfold sum_values. by rewrite map_fold_empty.
Qed.

Lemma unfitted_stats_count_by_name_witness :
  exists stats : gmap string Z,
    PackingEngine.get_unfitted_stats
      (packing_run (Container.__init__ "Container" 100 100 100 1000)
         [mk_cargo "big_one" 80 80 80 10 1; mk_cargo "small" 50 50 50 10 3])
    = Ok stats
    /\ stats !! "small" = Some 3%Z
    /\ sum_values stats = 3%Z.
Proof.
  destruct (unfitted_stats_count_by_name
              (packing_run (Container.__init__ "Container" 100 100 100 1000)
                 [mk_cargo "big_one" 80 80 80 10 1;
                  mk_cargo "small" 50 50 50 10 3])
              [Item.__init__ "small_0" 50 50 50 10;
               Item.__init__ "small_1" 50 50 50 10;
               Item.__init__ "small_2" 50 50 50 10])
    as (stats & Hstats & Hkeys & Hcount & Hsum).
  - vm_compute. reflexivity.
  - exists stats. split; [exact Hstats |]. split; [| exact Hsum].
    destruct (proj2 (Hkeys "small")) as [n Hn].
    + exists (Item.__init__ "small_0" 50 50 50 10). split; [left | reflexivity].
    + rewrite Hn. f_equal. apply (Hcount "small" n Hn).
Defined.

(** ** Load efficiency *)


Lemma Qeq_bool_false (a b : Q) : Qeq_bool a b = false <-> ~ a == b.
Proof.
  split.
  - intros Hb Heq. apply Qeq_bool_iff in Heq. congruence.
  - intros Hne. destruct (Qeq_bool a b) eqn:Hb; [| done].
    by apply Qeq_bool_iff in Hb.
Qed.

Lemma fold_left_Qplus (l : list Q) (a : Q) :
  fold_left Qplus l a == a + fold_right Qplus 0 l.
Proof.
  revert a. induction l as [| x l IH]; intros a; simpl.
  - lra.
  - rewrite IH. lra.
Qed.

Lemma sum_fold_right (l : list Q) : sum l == fold_right Qplus 0 l.
Proof. unfold sum. rewrite fold_left_Qplus. lra. Qed.

Lemma packed_items_flag (self : PackingEngine.t) (its : list Item.t) :
  PackingEngine.packed_items self = Ok its ->
  PackingEngine._packed self = true.
Proof.
  unfold PackingEngine.packed_items.
  by destruct (PackingEngine._packed self).
Qed.

Lemma load_efficiency_unfold (self : PackingEngine.t)
    (container : Container.t) (its : list Item.t) :
  PackingEngine.packed_items self = Ok its ->
  PackingEngine.get_load_efficiency self container
  = r ← truediv
          (sum (map (fun item =>
                       float (Item.width item * Item.height item
                              * Item.depth item)) its))
          (Container.volume container);
    mret (r * 100).
Proof.
  intros Hits. unfold PackingEngine.get_load_efficiency.
  by rewrite (packed_items_flag _ _ Hits), Hits.
Qed.

Lemma same_dimensions_volumes (its its' : list Item.t) :
  Forall2 same_dimensions its its' ->
  map (fun item =>
         float (Item.width item * Item.height item * Item.depth item)) its
  = map (fun item =>
           float (Item.width item * Item.height item * Item.depth item)) its'.
Proof.
  induction 1 as [| a b its its' (Hw & Hh & Hd) _ IH]; [done |].
  simpl. by rewrite Hw, Hh, Hd, IH.
Qed.

Lemma rotated_dimensions_cases (item : Item.t) :
  let w := Item.width item in
  let h := Item.height item in
  let d := Item.depth item in
  get_rotated_dimensions item
  ∈ [[w; h; d]; [h; w; d]; [h; d; w]; [d; h; w]; [d; w; h]; [w; d; h]].
Proof.
  intros w h d.
  destruct (decide (0 <= Item.rotation_type item <= 5)%Z) as [Hin | Hout].
  - pose proof (rotated_dimensions_lookup item _ eq_refl Hin) as Hl.
    assert (Hcases : Item.rotation_type item = 0%Z
                     \/ Item.rotation_type item = 1%Z
                     \/ Item.rotation_type item = 2%Z
                     \/ Item.rotation_type item = 3%Z
                     \/ Item.rotation_type item = 4%Z
                     \/ Item.rotation_type item = 5%Z) by lia.
    destruct Hcases as [Hr | [Hr | [Hr | [Hr | [Hr | Hr]]]]];
      rewrite Hr in Hl; simpl in Hl; injection Hl as ->;
      repeat (first [by left | right]).
  - rewrite (rotation_map_miss item Hout). left.
Qed.

Lemma rotation_keeps_volume (item : Item.t) :
  fold_right Qmult 1 (get_rotated_dimensions item) == Item.get_volume item.
Proof.
  pose proof (rotated_dimensions_cases item) as Hc. simpl in Hc.
  unfold Item.get_volume.
  repeat (apply elem_of_cons in Hc as [-> | Hc]; [simpl; ring |]).
  by apply elem_of_nil in Hc.
Qed.

(** C2. Once a run has been executed, [get_load_efficiency] returns the
    sum of the packed items' [width * height * depth] divided by
    [container.volume], times 100, with [container.volume] the product of
    the container's three dimensions (on a container of volume zero the
    division raises). The rotation of an item does not enter: the product
    of its rotated dimensions is its intrinsic volume, and two runs whose
    packed items agree on their dimensions get the same value. *)
Theorem load_efficiency_formula (self : PackingEngine.t)
    (container : Container.t) (its : list Item.t) :
  PackingEngine.packed_items self = Ok its ->
  Container.volume container
  = Container.width container * Container.height container
    * Container.depth container
  /\ (~ Container.volume container == 0 ->
      exists q : Q,
        PackingEngine.get_load_efficiency self container = Ok q
        /\ q == spec_load_efficiency its (Container.width container)
                (Container.height container) (Container.depth container))
  /\ (Container.volume container == 0 ->
      PackingEngine.get_load_efficiency self container
      = Raise ZeroDivisionError)
  /\ (forall item : Item.t,
        fold_right Qmult 1 (get_rotated_dimensions item)
        == Item.width item * Item.height item * Item.depth item)
  /\ (forall (self' : PackingEngine.t) (its' : list Item.t),
        PackingEngine.packed_items self' = Ok its' ->
        Forall2 same_dimensions its its' ->
        PackingEngine.get_load_efficiency self' container
        = PackingEngine.get_load_efficiency self container).
Proof.
  intros Hits. split; [done |]. split; [| split; [| split]].
  - intros Hvol. rewrite (load_efficiency_unfold _ _ _ Hits).
    unfold truediv. apply Qeq_bool_false in Hvol. rewrite Hvol. simpl.
    eexists. split; [reflexivity |].
    unfold spec_load_efficiency. rewrite sum_fold_right.
    reflexivity.
  - intros Hvol. rewrite (load_efficiency_unfold _ _ _ Hits).
    unfold truediv. apply Qeq_bool_iff in Hvol. by rewrite Hvol.
  - apply rotation_keeps_volume.
  - intros self' its' Hits' Hsame.
    rewrite (load_efficiency_unfold _ _ _ Hits),
      (load_efficiency_unfold _ _ _ Hits').
    by rewrite (same_dimensions_volumes _ _ Hsame).
Qed.

Lemma load_efficiency_formula_witness :
  let container := Container.__init__ "Container" 100 100 100 1000 in
  exists q : Q,
    PackingEngine.get_load_efficiency
      (packing_run container [mk_cargo "cube" 50 50 50 100 2]) container
    = Ok q
    /\ q == 25.
Proof.
  intros container.
  destruct (load_efficiency_formula
              (packing_run container [mk_cargo "cube" 50 50 50 100 2])
              container
              [Item.mk "cube_0" 50 50 50 100 0 (0, 0, 0);
               Item.mk "cube_1" 50 50 50 100 0 (50, 0, 0)])
    as (_ & Hval & _).
  - vm_compute. reflexivity.
  - destruct Hval as (q & Hq & Heq).
    + vm_compute. discriminate.
    + exists q. split; [exact Hq |]. rewrite Heq. vm_compute. reflexivity.
Defined.

(** ** A complete run *)

Lemma packing_run_unfold (name : string) (w h d mw : Q)
    (items : list CargoRecord) :
  packing_run (Container.__init__ name w h d mw) items
  = PackingEngine.mk
      (Packer.mk
         [Packer.pack_to_bin (concat (map unit_items items))
            (Bin.__init__ name w h d mw)]
         (concat (map unit_items items)))
      true.
Proof.
  unfold packing_run, session. simpl. by rewrite add_items_unfold.
Qed.

Lemma packing_run_packed_items (name : string) (w h d mw : Q)
    (items : list CargoRecord) :
  PackingEngine.packed_items
    (packing_run (Container.__init__ name w h d mw) items)
  = Ok (Engine.packed
          (Engine.pack (w, h, d) mw (concat (map unit_items items)))).
Proof. by rewrite packing_run_unfold. Qed.

Lemma packing_run_unfitted_items (name : string) (w h d mw : Q)
    (items : list CargoRecord) :
  PackingEngine.unfitted_items
    (packing_run (Container.__init__ name w h d mw) items)
  = Ok (Engine.unfitted
          (Engine.pack (w, h, d) mw (concat (map unit_items items)))).
Proof. by rewrite packing_run_unfold. Qed.







(** ** Weighted segments on a line *)

Lemma Qle_bool_cases (a b : Q) :
  (Qle_bool a b = true /\ a <= b) \/ (Qle_bool a b = false /\ b < a).
Proof.
  destruct (Qle_bool a b) eqn:H.
  - left. split; [done |]. by apply Qle_bool_iff.
  - right. split; [done |].
    destruct (Qlt_le_dec b a) as [Hlt | Hge]; [done |].
    apply Qle_bool_iff in Hge. congruence.
Qed.

Lemma Qlt_bool_cases (a b : Q) :
  (Qlt_bool a b = true /\ a < b) \/ (Qlt_bool a b = false /\ b <= a).
Proof.
  unfold Qlt_bool. destruct (Qle_bool_cases b a) as [[-> H] | [-> H]]; simpl; auto.
Qed.






Lemma cut_length (t : Q) (l : list triple) :
  (length (cut t l) <= length l)%nat.
Proof.
  unfold cut. rewrite length_map. apply length_filter.
Qed.



(** ** Boxes in a container *)






















(** ** The invariant of the run and the efficiency bound *)













Lemma insert_Forall (P : nat * Item.t -> Prop) (e : nat * Item.t)
    (l : list (nat * Item.t)) :
  P e -> Forall P l -> Forall P (Engine.insert e l).
Proof.
  intros He. induction 1 as [| e' l He' Hl IH]; simpl.
  - by repeat constructor.
  - destruct (Qlt_bool _ _); by repeat constructor.
Qed.








(** ** Determinism of the run *)

Lemma first_passing_functional (ok : triple * RotationType -> bool)
    (cands : list (triple * RotationType))
    (o1 o2 : option (triple * RotationType)) :
  first_passing ok cands o1 -> first_passing ok cands o2 -> o1 = o2.
Proof.
  induction 1 as [| p cands Hp | p cands o Hp _ IH]; inversion 1; subst;
    try done; try congruence.
  by apply IH.
Qed.

Lemma first_rotation_passing (ok : triple * RotationType -> bool)
    (a : triple) (rs : list RotationType)
    (rest : list (triple * RotationType))
    (o : option (triple * RotationType)) :
  first_passing ok rest o ->
  first_passing ok (map (pair a) rs ++ rest)
    (match Engine.first_rotation (fun r => ok (a, r)) rs with
     | Some r => Some (a, r)
     | None => o
     end).
Proof.
  intros Hrest. induction rs as [| r rs IH]; simpl; [done |].
  destruct (ok (a, r)) eqn:Hr.
  - by apply first_here.
  - by apply first_later.
Qed.

Lemma search_first_passing (ok : triple -> RotationType -> bool)
    (anchors : list triple) :
  first_passing (fun p => ok p.1 p.2) (candidates anchors)
    (Engine.search ok anchors).
Proof.
  induction anchors as [| a anchors IH]; [constructor |].
  cbn [candidates flat_map Engine.search].
  apply (first_rotation_passing (fun p => ok p.1 p.2) a RotationType.ALL) in IH.
  exact IH.
Qed.

Lemma step_item_step (cdims : triple) (mw : Q) (acc : Engine.run)
    (e : nat * Item.t) :
  item_step cdims mw acc e (Engine.step cdims mw acc e).
Proof.
  unfold Engine.step.
  pose proof (search_first_passing
                (Engine.passes cdims mw (Engine.st acc) e.2)
                (CandidatePoints.anchors (Engine.points (Engine.st acc))))
    as Hs.
  destruct (Engine.search _ _) as [[anchor r] |].
  - by apply item_placed.
  - by apply item_unfitted.
Qed.

Lemma item_step_functional (cdims : triple) (mw : Q) (acc : Engine.run)
    (e : nat * Item.t) (acc1 acc2 : Engine.run) :
  item_step cdims mw acc e acc1 -> item_step cdims mw acc e acc2 ->
  acc1 = acc2.
Proof.
  intros H1 H2.
  destruct H1 as [acc e a1 r1 Hf1 | acc e Hf1];
    inversion H2 as [? ? a2 r2 Hf2 | ? ? Hf2]; subst;
    pose proof (first_passing_functional _ _ _ _ Hf1 Hf2) as Heq;
    try done.
  by inversion Heq.
Qed.

Lemma fold_items_run (cdims : triple) (mw : Q) (es : list (nat * Item.t))
    (acc : Engine.run) :
  items_run cdims mw acc es (fold_left (Engine.step cdims mw) es acc).
Proof.
  revert acc. induction es as [| e es IH]; intros acc; simpl.
  - constructor.
  - econstructor; [apply step_item_step | apply IH].
Qed.

Lemma items_run_functional (cdims : triple) (mw : Q)
    (es : list (nat * Item.t)) (acc f1 f2 : Engine.run) :
  items_run cdims mw acc es f1 -> items_run cdims mw acc es f2 -> f1 = f2.
Proof.
  induction 1 as [| acc e acc' es f1 Hstep _ IH]; inversion 1; subst;
    [done |].
  apply IH.
  match goal with
  | H : item_step _ _ _ _ ?a |- items_run _ _ acc' _ _ =>
      by rewrite (item_step_functional _ _ _ _ _ _ Hstep H)
  end.
Qed.

Lemma goes_before_asym (e e' : nat * Item.t) :
  goes_before e e' -> goes_before e' e -> False.
Proof.
  unfold goes_before. intros [H1 | [H1 H1']] [H2 | [H2 H2']]; try lra. lia.
Qed.

Lemma sorted_permutation_unique {A} (R : A -> A -> Prop) (l1 l2 : list A) :
  (forall a b, R a b -> R b a -> False) ->
  l1 ≡ₚ l2 -> ForallOrdPairs R l1 -> ForallOrdPairs R l2 -> l1 = l2.
Proof.
  intros Hasym. revert l2.
  induction l1 as [| a l1 IH]; intros l2 Hperm Hs1 Hs2.
  - by apply Permutation_nil in Hperm.
  - destruct l2 as [| b l2];
      [by apply Permutation_sym, Permutation_nil in Hperm |].
    inversion Hs1 as [| ? ? Ha Hs1']; subst.
    inversion Hs2 as [| ? ? Hb Hs2']; subst.
    rewrite List.Forall_forall in Ha, Hb.
    assert (Hab : a = b).
    { assert (Hin : a ∈ b :: l2) by (rewrite <- Hperm; left).
      apply elem_of_cons in Hin as [-> | Hin]; [done |].
      assert (Hin' : b ∈ a :: l1) by (rewrite Hperm; left).
      apply list_elem_of_In in Hin. specialize (Hb a Hin).
      apply elem_of_cons in Hin' as [-> | Hin'].
      - destruct (Hasym _ _ Hb Hb).
      - apply list_elem_of_In in Hin'. destruct (Hasym _ _ (Ha b Hin') Hb). }
    subst b. f_equal. apply IH; [| done | done].
    by apply Permutation_cons_inv in Hperm.
Qed.

Lemma insert_permutation (e : nat * Item.t) (l : list (nat * Item.t)) :
  Engine.insert e l ≡ₚ e :: l.
Proof.
  induction l as [| e' l IH]; simpl; [done |].
  destruct (Qlt_bool _ _); [| done].
  rewrite IH. apply perm_swap.
Qed.

Lemma order_items_permutation (l : list (nat * Item.t)) :
  l ≡ₚ Engine.order_items l.
Proof.
  induction l as [| e l IH]; simpl; [done |].
  by rewrite insert_permutation, <- IH.
Qed.

Lemma insert_sorted (e : nat * Item.t) (l : list (nat * Item.t)) :
  ForallOrdPairs goes_before l ->
  Forall (fun e' : nat * Item.t => (e.1 < e'.1)%nat) l ->
  ForallOrdPairs goes_before (Engine.insert e l).
Proof.
  induction 1 as [| e' l He' Hl IH]; intros Hix; simpl.
  - constructor; constructor.
  - apply Forall_cons in Hix as [Hix' Hix].
    destruct (Qlt_bool_cases (Item.get_volume e.2) (Item.get_volume e'.2))
      as [[-> Hlt] | [-> Hge]].
    + constructor; [| by apply IH].
      apply insert_Forall; [by left | done].
    + constructor; [| by constructor].
      assert (Hee' : goes_before e e').
      { unfold goes_before.
        destruct (Qlt_le_dec (Item.get_volume e'.2) (Item.get_volume e.2));
          [by left | right]. split; [lra | done]. }
      constructor; [exact Hee' |].
      rewrite List.Forall_forall in He'. rewrite Forall_forall in Hix.
      apply List.Forall_forall. intros e'' Hin.
      specialize (He' e'' Hin).
      specialize (Hix e'' (proj2 (list_elem_of_In _ _) Hin)).
      unfold goes_before in *.
      destruct (Qlt_le_dec (Item.get_volume e''.2) (Item.get_volume e.2));
        [by left | right].
      split; [| done]. destruct He' as [? | [? _]]; lra.
Qed.

Lemma order_items_sorted (l : list (nat * Item.t)) :
  ForallOrdPairs (fun e e' : nat * Item.t => (e.1 < e'.1)%nat) l ->
  ForallOrdPairs goes_before (Engine.order_items l).
Proof.
  induction 1 as [| e l He _ IH]; simpl; [constructor |].
  apply insert_sorted; [exact IH |].
  rewrite <- order_items_permutation. exact He.
Qed.

Lemma indexed_from_increasing (n : nat) (items : list Item.t) :
  ForallOrdPairs (fun e e' : nat * Item.t => (e.1 < e'.1)%nat)
    (combine (seq n (length items)) items)
  /\ Forall (fun e : nat * Item.t => (n <= e.1)%nat)
       (combine (seq n (length items)) items).
Proof.
  revert n. induction items as [| item items IH]; intros n; simpl.
  - split; constructor.
  - destruct (IH (S n)) as [Hs Hge]. split.
    + constructor; [| exact Hs].
      apply List.Forall_forall. rewrite Forall_forall in Hge.
      intros e He. apply list_elem_of_In in He. specialize (Hge e He).
      simpl. lia.
    + constructor; [simpl; lia |].
      eapply Forall_impl; [exact Hge |]. simpl. intros; lia.
Qed.

Lemma order_items_ordered (items : list Item.t) :
  ordered_for_packing items (Engine.order_items (Engine.indexed items)).
Proof.
  split; [apply order_items_permutation |].
  apply order_items_sorted. apply indexed_from_increasing.
Qed.

Lemma ordered_for_packing_unique (items : list Item.t)
    (s1 s2 : list (nat * Item.t)) :
  ordered_for_packing items s1 -> ordered_for_packing items s2 -> s1 = s2.
Proof.
  intros [Hp1 Hs1] [Hp2 Hs2].
  apply (sorted_permutation_unique goes_before);
    [apply goes_before_asym | by rewrite <- Hp1 | done | done].
Qed.

Lemma pack_packs (cdims : triple) (mw : Q) (items : list Item.t) :
  packs cdims mw items (Engine.pack cdims mw items).
Proof.
  unfold Engine.pack.
  apply (packs_intro cdims mw items
           (Engine.order_items (Engine.indexed items))).
  - apply order_items_ordered.
  - apply fold_items_run.
Qed.

Lemma packs_functional (cdims : triple) (mw : Q) (items : list Item.t)
    (r1 r2 : Engine.PackingResult) :
  packs cdims mw items r1 -> packs cdims mw items r2 -> r1 = r2.
Proof.
  intros [s1 f1 Ho1 Hr1] [s2 f2 Ho2 Hr2].
  rewrite (ordered_for_packing_unique _ _ _ Ho1 Ho2) in Hr1.
  by rewrite (items_run_functional _ _ _ _ _ _ Hr1 Hr2).
Qed.

(** C8. Section 4.4, read as a relation between (container, item sequence)
    and a result, has exactly one result for every input: any two runs on
    the same container and the same item sequence return the same packed
    list (items, positions, rotation indices, order) and the same unfitted
    list, and this is what the engine returns through [packed_items] and
    [unfitted_items]. *)
Theorem packing_is_deterministic (name : string) (w h d mw : Q)
    (items : list CargoRecord) :
  let units := concat (map unit_items items) in
  (exists r, packs (w, h, d) mw units r)
  /\ (forall r1 r2,
        packs (w, h, d) mw units r1 -> packs (w, h, d) mw units r2 ->
        Engine.packed r1 = Engine.packed r2
        /\ Engine.unfitted r1 = Engine.unfitted r2)
  /\ (forall r,
        packs (w, h, d) mw units r ->
        PackingEngine.packed_items
          (packing_run (Container.__init__ name w h d mw) items)
        = Ok (Engine.packed r)
        /\ PackingEngine.unfitted_items
             (packing_run (Container.__init__ name w h d mw) items)
           = Ok (Engine.unfitted r)).
Proof.
  intros units. split; [| split].
  - eexists. apply pack_packs.
  - intros r1 r2 H1 H2. by rewrite (packs_functional _ _ _ _ _ H1 H2).
  - intros r Hr.
    rewrite (packs_functional _ _ _ _ _ Hr (pack_packs _ _ _)).
    by rewrite packing_run_packed_items, packing_run_unfitted_items.
Qed.

Lemma packing_is_deterministic_witness :
  PackingEngine.packed_items
    (packing_run (Container.__init__ "Container" 100 100 100 1000)
       [mk_cargo "cube" 50 50 50 100 2])
  = Ok [Item.mk "cube_0" 50 50 50 100 0 (0, 0, 0);
        Item.mk "cube_1" 50 50 50 100 0 (50, 0, 0)]
  /\ PackingEngine.unfitted_items
       (packing_run (Container.__init__ "Container" 100 100 100 1000)
          [mk_cargo "cube" 50 50 50 100 2])
     = Ok [].
Proof.
  destruct (packing_is_deterministic "Container" 100 100 100 1000
              [mk_cargo "cube" 50 50 50 100 2]) as (_ & _ & Hrun).
  destruct (Hrun (Engine.pack (100, 100, 100) 1000
                    (concat (map unit_items [mk_cargo "cube" 50 50 50 100 2])))
              (pack_packs _ _ _)) as [Hp Hu].
  rewrite Hp, Hu. split; reflexivity.
Defined.

(** ** The scenarios of section 8 *)

Example scenario_A :
  let container := Container.__init__ "Container" 100 100 100 1000 in
  let e := packing_run container [mk_cargo "cube" 50 50 50 100 2] in
  PackingEngine.packed_items e
  = Ok [Item.mk "cube_0" 50 50 50 100 0 (0, 0, 0);
        Item.mk "cube_1" 50 50 50 100 0 (50, 0, 0)]
  /\ PackingEngine.unfitted_items e = Ok []
  /\ exists q, PackingEngine.get_load_efficiency e container = Ok q /\ q == 25.
Proof.
  repeat split. eexists. split; [vm_compute; reflexivity | reflexivity].
Qed.

Example scenario_B :
  let container := Container.__init__ "Container" 100 100 100 1000 in
  let e := packing_run container [mk_cargo "beam" 200 50 50 50 1] in
  PackingEngine.packed_items e = Ok []
  /\ PackingEngine.unfitted_items e = Ok [Item.__init__ "beam_0" 200 50 50 50].
Proof. by vm_compute. Qed.

Example scenario_C :
  let container := Container.__init__ "Container" 100 100 100 50 in
  let e := packing_run container [mk_cargo "cube" 50 50 50 100 1] in
  PackingEngine.packed_items e = Ok []
  /\ PackingEngine.unfitted_items e = Ok [Item.__init__ "cube_0" 50 50 50 100].
Proof. by vm_compute. Qed.

Example scenario_E :
  let container := Container.__init__ "Container" 100 100 100 1000 in
  let e :=
    packing_run container
      [mk_cargo "large" 80 80 80 10 1; mk_cargo "small" 50 50 50 10 1] in
  PackingEngine.packed_items e
  = Ok [Item.mk "large_0" 80 80 80 10 0 (0, 0, 0)]
  /\ PackingEngine.unfitted_items e = Ok [Item.__init__ "small_0" 50 50 50 10].
Proof. by vm_compute. Qed.

(** ** core/container.py: the cached bin *)

(** X1. The [bin] property creates the bin on first use and caches it: the
    bin of a fresh container carries the container's name, dimensions and
    weight limit and holds no items, a second access returns the same bin
    without changing the container, and caching leaves the container's
    dimensions and volume alone. *)
Theorem bin_is_cached (c : Container.t) :
  let b := (Container.bin c).1 in
  let c' := (Container.bin c).2 in
  Container.bin c' = (b, c')
  /\ Container._bin c' = Some b
  /\ Container.get_dimensions c' = Container.get_dimensions c
  /\ Container.volume c' = Container.volume c
  /\ (Container._bin c = None ->
      b = Bin.__init__ (Container.name c) (Container.width c)
            (Container.height c) (Container.depth c) (Container.max_weight c)).
Proof.
  destruct c as [name w h d mw [b0 |]]; simpl; repeat split; try done.
Qed.

Lemma bin_is_cached_witness :
  let c := Container.__init__ "Container" 100 200 300 1000 in
  (Container.bin c).1 = Bin.__init__ "Container" 100 200 300 1000.
Proof.
  intros c. destruct (bin_is_cached c) as (_ & _ & _ & _ & Hfresh).
  apply Hfresh. reflexivity.
Defined.

(** ** core/packer.py: loading the engine *)

Lemma add_container_unfold (self : PackingEngine.t) (c : Container.t) :
  (PackingEngine.add_container self c).1
  = PackingEngine.mk
      (Packer.mk (Packer.bins (PackingEngine.packer self)
                  ++ [(Container.bin c).1])
         (Packer.items (PackingEngine.packer self)))
      (PackingEngine._packed self).
Proof.
  unfold PackingEngine.add_container.
  by destruct (Container.bin c) as [b c'].
Qed.

(** X2. Calls to [add_items] accumulate: two calls in a row load the packer
    exactly as one call on the concatenated catalogue, and an empty
    catalogue changes nothing. *)
Theorem add_items_accumulates (self : PackingEngine.t)
    (items1 items2 : list CargoRecord) :
  PackingEngine.add_items (PackingEngine.add_items self items1) items2
  = PackingEngine.add_items self (items1 ++ items2)
  /\ PackingEngine.add_items self [] = self.
Proof.
  split; [| by destruct self as [[bins its] packed]].
  rewrite !add_items_unfold. simpl.
  by rewrite map_app, concat_app, app_assoc.
Qed.

Lemma unit_items_length (r : CargoRecord) :
  length (unit_items r) = Z.to_nat (cargo_count r).
Proof. unfold unit_items. by rewrite length_map, range_length. Qed.

Lemma concat_unit_items_length (items : list CargoRecord) :
  length (concat (map unit_items items))
  = fold_right Nat.add 0%nat (map (fun r => Z.to_nat (cargo_count r)) items).
Proof.
  induction items as [| r items IH]; simpl; [done |].
  by rewrite length_app, unit_items_length, IH.
Qed.

(** X3. [add_items] leaves the bins and the [_packed] flag alone and adds
    as many items as the counts say, a record whose count is zero or
    negative contributing none. *)
Theorem add_items_count (self : PackingEngine.t) (items : list CargoRecord) :
  let loaded := PackingEngine.add_items self items in
  Packer.bins (PackingEngine.packer loaded)
  = Packer.bins (PackingEngine.packer self)
  /\ PackingEngine._packed loaded = PackingEngine._packed self
  /\ length (Packer.items (PackingEngine.packer loaded))
     = (length (Packer.items (PackingEngine.packer self))
        + fold_right Nat.add 0
            (map (fun r => Z.to_nat (cargo_count r)) items))%nat
  /\ (Forall (fun r => (cargo_count r <= 0)%Z) items -> loaded = self).
Proof.
  intros loaded. subst loaded. rewrite add_items_unfold. simpl.
  repeat split.
  - by rewrite length_app, concat_unit_items_length.
  - intros Hnone.
    assert (Hempty : concat (map unit_items items) = []).
    { induction Hnone as [| r items Hr _ IH]; simpl; [done |].
      rewrite IH, app_nil_r. unfold unit_items, range.
      by replace (Z.to_nat (cargo_count r)) with 0%nat by lia. }
    rewrite Hempty, app_nil_r. by destruct self as [[bins its] packed].
Qed.

Lemma add_items_count_witness :
  PackingEngine.add_items PackingEngine.__init__
    [mk_cargo "none" 1 1 1 1 0; mk_cargo "neg" 1 1 1 1 (-3)]
  = PackingEngine.__init__.
Proof.
  destruct (add_items_count PackingEngine.__init__
              [mk_cargo "none" 1 1 1 1 0; mk_cargo "neg" 1 1 1 1 (-3)])
    as (_ & _ & _ & Hnone).
  apply Hnone. repeat constructor; simpl; lia.
Defined.

(** X4. The order of loading does not matter: adding the container before
    or after the items gives the same engine. *)
Theorem add_container_add_items_commute (self : PackingEngine.t)
    (c : Container.t) (items : list CargoRecord) :
  PackingEngine.add_items (PackingEngine.add_container self c).1 items
  = (PackingEngine.add_container (PackingEngine.add_items self items) c).1.
Proof.
  by rewrite add_items_unfold, !add_container_unfold, add_items_unfold.
Qed.

Lemma exec_bins (self : PackingEngine.t) (c : call) :
  is_add_container c = false ->
  Packer.bins (PackingEngine.packer self) = [] ->
  Packer.bins (PackingEngine.packer (exec self c)) = [].
Proof.
  destruct c as [container | items |]; simpl; [done | |].
  - intros _ Hb. by rewrite add_items_unfold.
  - intros _ Hb. by rewrite Hb.
Qed.

Lemma fold_exec_bins (calls : list call) (self : PackingEngine.t) :
  existsb is_add_container calls = false ->
  Packer.bins (PackingEngine.packer self) = [] ->
  Packer.bins (PackingEngine.packer (fold_left exec calls self)) = [].
Proof.
  revert self. induction calls as [| c calls IH]; intros self; simpl;
    [done |].
  intros Hc Hb. apply orb_false_iff in Hc as [Hc Hcalls].
  apply IH; [done |]. by apply exec_bins.
Qed.

(** X5. Without a container nothing is reported: when [add_container] was
    never called, [pack()] still succeeds, and afterwards [packed_items]
    and [unfitted_items] are both empty whatever items were added, and the
    load efficiency is 0 for any container of non-zero volume. *)
Theorem no_container_no_results (calls : list call) (c : Container.t) :
  existsb is_add_container calls = false ->
  existsb is_pack calls = true ->
  PackingEngine.packed_items (session calls) = Ok []
  /\ PackingEngine.unfitted_items (session calls) = Ok []
  /\ (~ Container.volume c == 0 ->
      exists q : Q,
        PackingEngine.get_load_efficiency (session calls) c = Ok q /\ q == 0).
Proof.
  intros Hnone Hpack.
  assert (Hbins : Packer.bins (PackingEngine.packer (session calls)) = [])
    by (by apply fold_exec_bins).
  assert (Hflag : PackingEngine._packed (session calls) = true)
    by (by rewrite session_packed).
  assert (Hp : PackingEngine.packed_items (session calls) = Ok []).
  { unfold PackingEngine.packed_items. by rewrite Hflag, Hbins. }
  split; [exact Hp |]. split.
  - unfold PackingEngine.unfitted_items. by rewrite Hflag, Hbins.
  - intros Hvol. rewrite (load_efficiency_unfold _ _ _ Hp).
    unfold truediv. apply Qeq_bool_false in Hvol. rewrite Hvol. simpl.
    eexists. split; [reflexivity |]. unfold sum. simpl. unfold Qdiv. ring.
Qed.

Lemma no_container_no_results_witness :
  PackingEngine.packed_items
    (session [AddItems [mk_cargo "cube" 50 50 50 100 2]; Pack]) = Ok []
  /\ PackingEngine.unfitted_items
       (session [AddItems [mk_cargo "cube" 50 50 50 100 2]; Pack]) = Ok [].
Proof.
  destruct (no_container_no_results
              [AddItems [mk_cargo "cube" 50 50 50 100 2]; Pack]
              Container.default eq_refl eq_refl) as (Hp & Hu & _).
  by split.
Defined.

Lemma tally_empty_iff (its : list Item.t) (stats : gmap string Z) :
  tally its stats = ∅ <-> its = [] /\ stats = ∅.
Proof.
  split.
  - intros Hempty. destruct its as [| item its]; [by split |].
    exfalso.
    assert (Hsome : is_Some (tally (item :: its) stats
                               !! reported_name item)).
    { apply tally_is_Some. right. exists item. split; [left | done]. }
    rewrite Hempty, lookup_empty in Hsome. by destruct Hsome.
  - by intros [-> ->].
Qed.

(** X6. [get_unfitted_stats] fails only through the [_packed] guard: before
    [pack()] it raises the [RuntimeError] of [unfitted_items]; afterwards
    it returns a mapping, which is empty exactly when no item is
    unfitted. *)
Theorem unfitted_stats_errors (self : PackingEngine.t) :
  (PackingEngine._packed self = false ->
   PackingEngine.get_unfitted_stats self
   = Raise PackingEngine.not_packed_yet)
  /\ (PackingEngine._packed self = true ->
      exists stats : gmap string Z,
        PackingEngine.get_unfitted_stats self = Ok stats
        /\ (stats = ∅ <-> PackingEngine.unfitted_items self = Ok [])).
Proof.
  split; intros Hflag.
  - unfold PackingEngine.get_unfitted_stats, PackingEngine.unfitted_items.
    by rewrite Hflag.
  - destruct (unfitted_items_ok self Hflag) as [its Hits].
    exists (tally its ∅). split.
    + unfold PackingEngine.get_unfitted_stats. rewrite Hits. simpl.
      apply stats_fold_tally.
    + rewrite tally_empty_iff, Hits. split.
      * by intros [-> _].
      * intros [= ->]. by split.
Qed.

Lemma unfitted_stats_errors_witness :
  PackingEngine.get_unfitted_stats
    (session [AddItems [mk_cargo "cube" 50 50 50 100 2]])
  = Raise PackingEngine.not_packed_yet.
Proof.
  destruct (unfitted_stats_errors
              (session [AddItems [mk_cargo "cube" 50 50 50 100 2]]))
    as [Hno _].
  apply Hno. reflexivity.
Defined.

(** ** core/utils.py: rotated dimensions *)

(** X7. Whatever the rotation index, in range or not,
    [get_rotated_dimensions] returns three numbers that are a
    rearrangement of the item's width, height and depth. *)
Theorem rotated_dimensions_permutation (item : Item.t) :
  get_rotated_dimensions item
  ≡ₚ [Item.width item; Item.height item; Item.depth item]
  /\ length (get_rotated_dimensions item) = 3%nat.
Proof.
  pose proof (rotated_dimensions_cases item) as Hc. simpl in Hc.
  repeat (apply elem_of_cons in Hc as [-> | Hc];
          [split; [solve_Permutation | done] |]).
  by apply elem_of_nil in Hc.
Qed.

(** ** core/utils.py: the colour map *)

Lemma add_names_ok (names : gset string) (items : list Item.t) :
  ColorMapper.add_names names items = Ok (names ∪ reported_names items).
Proof.
  unfold ColorMapper.add_names, reported_names. revert names.
  induction items as [| item items IH]; intros names; simpl.
  - f_equal. change (list_to_set []) with (∅ : gset string).
    by rewrite (right_id_L ∅ (∪)).
  - rewrite split_head. simpl. rewrite IH. f_equal.
    change (list_to_set (?x :: ?l)) with ({[x]} ∪ (list_to_set l : gset string)).
    unfold reported_name. by rewrite (assoc_L (∪)).
Qed.

Lemma assign_color_raise (self : ColorMapper.t) (ns : list string) (e : exn) :
  fold_left (ColorMapper.assign_color self) ns (Raise e) = Raise e.
Proof. induction ns as [| n ns IH]; simpl; [done | exact IH]. Qed.

Lemma assign_color_pure (self : ColorMapper.t) (ns : list string)
    (st : gmap string string * nat) :
  ColorMapper.available_colors self <> [] ->
  fold_left (ColorMapper.assign_color self) ns (Ok st)
  = Ok (fold_left (assign_pure self) ns st).
Proof.
  intros Hne. revert st.
  induction ns as [| n ns IH]; intros [m idx]; simpl; [done |].
  unfold assign_pure at 2. simpl.
  destruct (m !! n) as [c |] eqn:Hn; simpl; [by rewrite IH |].
  unfold py_mod.
  assert (Hlen : (length (ColorMapper.available_colors self) =? 0)%nat = false).
  { apply Nat.eqb_neq. by destruct (ColorMapper.available_colors self). }
  rewrite Hlen. simpl. unfold getitem.
  destruct (lookup_lt_is_Some_2 (ColorMapper.available_colors self)
              (idx mod length (ColorMapper.available_colors self))%nat)
    as [c Hc].
  { apply Nat.mod_upper_bound. by apply Nat.eqb_neq. }
  rewrite Hc. simpl. rewrite IH. unfold color_at. by rewrite Hc.
Qed.

Lemma fresh_names_insert (m : gmap string string) (n c : string)
    (ns : list string) :
  n ∉ ns -> fresh_names (<[n := c]> m) ns = fresh_names m ns.
Proof.
  intros Hn. unfold fresh_names.
  induction ns as [| x ns IH]; [done |].
  apply not_elem_of_cons in Hn as [Hx Hn].
  rewrite !filter_cons, lookup_insert_ne by done.
  rewrite IH by done. done.
Qed.

(** The colour loop in closed form: the names it did not know get, in
    iteration order, the palette entries from [color_index] on. *)
Lemma assign_pure_fold (self : ColorMapper.t) (ns : list string)
    (m : gmap string string) (idx : nat) :
  NoDup ns ->
  fold_left (assign_pure self) ns (m, idx)
  = (m ∪ list_to_map
           (zip (fresh_names m ns)
                (map (color_at self)
                     (seq idx (length (fresh_names m ns))))),
     (idx + length (fresh_names m ns))%nat).
Proof.
  intros Hnd. revert m idx.
  induction Hnd as [| n ns Hn _ IH]; intros m idx; simpl.
  - by rewrite (right_id_L ∅ (∪)), Nat.add_0_r.
  - unfold assign_pure at 2. simpl. unfold fresh_names at 1 2 3.
    destruct (m !! n) as [c |] eqn:Hmn.
    + rewrite !filter_cons_False by (by rewrite Hmn). apply IH.
    + rewrite !filter_cons_True by done. rewrite IH.
      rewrite fresh_names_insert by done. simpl.
      unfold fresh_names. f_equal; [| lia].
      rewrite <- insert_union_l. by rewrite insert_union_r.
Qed.

Lemma fresh_names_NoDup (m : gmap string string) (ns : list string) :
  NoDup ns -> NoDup (fresh_names m ns).
Proof. apply NoDup_filter. Qed.

Lemma default_palette_nonempty :
  ColorMapper.available_colors ColorMapper.__init__ <> [].
Proof. done. Qed.

Lemma generate_color_map_closed (iteration : gset string -> list string)
    (self : ColorMapper.t) (packed unfitted : list Item.t) :
  set_iteration iteration ->
  ColorMapper.available_colors self <> [] ->
  let ns := iteration (reported_names (packed ++ unfitted)) in
  let fresh := fresh_names (ColorMapper.base_colors self) ns in
  ColorMapper.generate_color_map iteration self packed unfitted
  = Ok (ColorMapper.base_colors self
        ∪ list_to_map
            (zip fresh
                 (map (color_at self)
                      (seq (size (ColorMapper.base_colors self))
                           (length fresh))))).
Proof.
  intros Hit Hne ns fresh. unfold ColorMapper.generate_color_map.
  rewrite add_names_ok. simpl. rewrite add_names_ok. simpl.
  replace (∅ ∪ reported_names packed ∪ reported_names unfitted)
    with (reported_names (packed ++ unfitted))
    by (unfold reported_names;
        rewrite map_app, list_to_set_app_L, (left_id_L ∅ (∪)); done).
  fold ns. rewrite assign_color_pure by done. simpl.
  rewrite assign_pure_fold by apply Hit. done.
Qed.

Lemma fresh_names_elem (m : gmap string string) (ns : list string)
    (k : string) :
  k ∈ fresh_names m ns <-> k ∈ ns /\ m !! k = None.
Proof. unfold fresh_names. rewrite list_elem_of_filter. tauto. Qed.

Lemma zip_lookup_is_Some (ks vs : list string) (k : string) :
  length ks = length vs ->
  is_Some ((list_to_map (zip ks vs) : gmap string string) !! k) <-> k ∈ ks.
Proof.
  intros Hlen. rewrite <- elem_of_dom, dom_list_to_map_L.
  rewrite elem_of_list_to_set, fst_zip by lia. done.
Qed.

Lemma reported_names_elem (items : list Item.t) (k : string) :
  k ∈ reported_names items
  <-> exists item, item ∈ items /\ reported_name item = k.
Proof.
  unfold reported_names. rewrite elem_of_list_to_set.
  change (map reported_name items) with (reported_name <$> items).
  rewrite list_elem_of_fmap. split.
  - intros (item & -> & Hin). by exists item.
  - intros (item & Hin & <-). by exists item.
Qed.

(** X8. The colour map of the default mapper is defined for every list of
    items; it keeps every entry of [base_colors] as it is, and its keys
    are exactly the base names together with the names under which the
    packed and unfitted items are reported. *)
Theorem color_map_covers_items (iteration : gset string -> list string)
    (packed unfitted : list Item.t) :
  set_iteration iteration ->
  exists color_map : gmap string string,
    ColorMapper.generate_color_map iteration ColorMapper.__init__ packed
      unfitted = Ok color_map
    /\ (forall k c,
          ColorMapper.base_colors ColorMapper.__init__ !! k = Some c ->
          color_map !! k = Some c)
    /\ (forall k,
          is_Some (color_map !! k)
          <-> is_Some (ColorMapper.base_colors ColorMapper.__init__ !! k)
              \/ exists item,
                   item ∈ packed ++ unfitted /\ reported_name item = k).
Proof.
  intros Hit. eexists. split; [| split].
  - by apply generate_color_map_closed.
  - intros k c Hk. by apply lookup_union_Some_l.
  - intros k. rewrite lookup_union_is_Some, zip_lookup_is_Some
      by (by rewrite length_map, length_seq).
    rewrite fresh_names_elem. destruct (Hit (reported_names (packed ++ unfitted)))
      as [_ Hel].
    rewrite Hel, reported_names_elem. split.
    + intros [H | [H _]]; [by left | by right].
    + intros [H | H]; [by left |].
      destruct (ColorMapper.base_colors ColorMapper.__init__ !! k) eqn:Hb;
        [left; by eexists | right; by split].
Qed.

Lemma color_map_covers_items_witness :
  exists color_map : gmap string string,
    ColorMapper.generate_color_map elements ColorMapper.__init__
      [Item.__init__ "crate_0" 1 1 1 1] [Item.__init__ "small_0" 1 1 1 1]
    = Ok color_map
    /\ color_map !! "small" = Some "#FF6B6B"
    /\ is_Some (color_map !! "crate").
Proof.
  destruct (color_map_covers_items elements
              [Item.__init__ "crate_0" 1 1 1 1]
              [Item.__init__ "small_0" 1 1 1 1])
    as (cm & Hcm & Hbase & Hkeys).
  - intros s. split; [apply NoDup_elements | intros x; apply elem_of_elements].
  - exists cm. split; [exact Hcm |]. split.
    + apply Hbase. reflexivity.
    + apply Hkeys. right. exists (Item.__init__ "crate_0" 1 1 1 1).
      split; [left | reflexivity].
Defined.

Lemma color_at_palette (self : ColorMapper.t) (i : nat) :
  ColorMapper.available_colors self <> [] ->
  color_at self i ∈ ColorMapper.available_colors self.
Proof.
  intros Hne. unfold color_at.
  destruct (lookup_lt_is_Some_2 (ColorMapper.available_colors self)
              (i mod length (ColorMapper.available_colors self))%nat)
    as [c Hc].
  { apply Nat.mod_upper_bound.
    by destruct (ColorMapper.available_colors self). }
  rewrite Hc. simpl. by eapply list_elem_of_lookup_2.
Qed.

Lemma default_base_in_palette (k c : string) :
  ColorMapper.base_colors ColorMapper.__init__ !! k = Some c ->
  c ∈ ColorMapper.available_colors ColorMapper.__init__.
Proof.
  simpl. intros Hk.
  repeat (apply lookup_insert_Some in Hk as [[_ <-] | [_ Hk]];
          [repeat (first [by left | right]) |]).
  by rewrite lookup_empty in Hk.
Qed.

(** X9. Every colour in the map of the default mapper is one of the 18
    entries of [available_colors]; the fallback grey of the drawing code
    is not among them. *)
Theorem color_map_uses_palette (iteration : gset string -> list string)
    (packed unfitted : list Item.t) (color_map : gmap string string) :
  set_iteration iteration ->
  ColorMapper.generate_color_map iteration ColorMapper.__init__ packed
    unfitted = Ok color_map ->
  forall k c,
    color_map !! k = Some c ->
    c ∈ ColorMapper.available_colors ColorMapper.__init__ /\ c <> "#999999".
Proof.
  intros Hit Hcm k c Hk.
  assert (Hin : c ∈ ColorMapper.available_colors ColorMapper.__init__).
  { rewrite generate_color_map_closed in Hcm by done.
    injection Hcm as <-.
    apply lookup_union_Some_raw in Hk as [Hk | [_ Hk]].
    - by eapply default_base_in_palette.
    - apply elem_of_list_to_map_2, elem_of_zip_r in Hk.
      change (map ?f ?l) with (f <$> l) in Hk.
      apply list_elem_of_fmap in Hk as (i & -> & _).
      by apply color_at_palette. }
  split; [exact Hin |]. intros ->. simpl in Hin.
  repeat (apply elem_of_cons in Hin as [Hin | Hin]; [done |]).
  by apply elem_of_nil in Hin.
Qed.

Lemma elements_iteration : set_iteration elements.
Proof.
  intros s. split; [apply NoDup_elements | intros x; apply elem_of_elements].
Qed.

Lemma color_map_uses_palette_witness :
  "#FF6B6B" ∈ ColorMapper.available_colors ColorMapper.__init__
  /\ "#FF6B6B" <> "#999999".
Proof.
  pose proof (generate_color_map_closed elements ColorMapper.__init__
                [Item.__init__ "crate_0" 1 1 1 1] [] elements_iteration
                default_palette_nonempty) as Hcm.
  apply (color_map_uses_palette elements [Item.__init__ "crate_0" 1 1 1 1] []
           _ elements_iteration Hcm "small").
  apply lookup_union_Some_l. reflexivity.
Defined.

Lemma default_base_as_zip :
  ColorMapper.base_colors ColorMapper.__init__
  = list_to_map
      (zip default_base_names
           (map (color_at ColorMapper.__init__) (seq 0 6))).
Proof.
  apply map_eq. intros k. simpl.
  repeat (destruct (decide (k = _)) as [-> | ?];
          [by simplify_map_eq |]).
  by simplify_map_eq.
Qed.

Lemma default_base_dom (k : string) :
  is_Some (ColorMapper.base_colors ColorMapper.__init__ !! k)
  <-> k ∈ default_base_names.
Proof.
  rewrite default_base_as_zip. by rewrite zip_lookup_is_Some.
Qed.

Lemma default_color_map_as_zip (fresh : list string) :
  ColorMapper.base_colors ColorMapper.__init__
  ∪ list_to_map
      (zip fresh
           (map (color_at ColorMapper.__init__)
                (seq (size (ColorMapper.base_colors ColorMapper.__init__))
                     (length fresh))))
  = list_to_map
      (zip (default_base_names ++ fresh)
           (map (color_at ColorMapper.__init__) (seq 0 (6 + length fresh)))).
Proof.
  replace (size (ColorMapper.base_colors ColorMapper.__init__)) with 6%nat
    by (rewrite default_base_as_zip, map_size_list_to_map;
        [done | by apply NoDup_ListNoDup; vm_compute; repeat constructor;
                rewrite ?elem_of_list_In; simpl; intuition discriminate]).
  rewrite default_base_as_zip at 1.
  rewrite <- list_to_map_app, seq_app, map_app.
  reflexivity.
Qed.

Lemma default_palette_NoDup :
  NoDup (ColorMapper.available_colors ColorMapper.__init__).
Proof.
  apply NoDup_ListNoDup. simpl.
  repeat (constructor; [simpl; intuition discriminate |]). constructor.
Qed.

Lemma default_colors_NoDup (n : nat) :
  (n <= 18)%nat ->
  NoDup (map (color_at ColorMapper.__init__) (seq 0 n)).
Proof.
  intros Hn. apply (NoDup_fmap_2_strong (color_at ColorMapper.__init__));
    [| apply NoDup_seq].
  intros i j Hi Hj. apply elem_of_seq in Hi, Hj. unfold color_at.
  change (length (ColorMapper.available_colors ColorMapper.__init__))
    with 18%nat.
  rewrite !Nat.mod_small by lia.
  destruct (lookup_lt_is_Some_2
              (ColorMapper.available_colors ColorMapper.__init__) i)
    as [ci Hci]; [simpl; lia |].
  destruct (lookup_lt_is_Some_2
              (ColorMapper.available_colors ColorMapper.__init__) j)
    as [cj Hcj]; [simpl; lia |].
  rewrite Hci, Hcj. simpl. intros <-.
  by eapply (NoDup_lookup _ i j ci); [apply default_palette_NoDup | |].
Qed.

Lemma zip_same_value (ks vs : list string) (k1 k2 c : string) :
  NoDup vs -> (k1, c) ∈ zip ks vs -> (k2, c) ∈ zip ks vs -> k1 = k2.
Proof.
  intros Hnd H1 H2.
  apply list_elem_of_lookup in H1 as [i Hi], H2 as [j Hj].
  apply lookup_zip_with_Some in Hi as (a & b & Heq & Ha & Hb).
  apply lookup_zip_with_Some in Hj as (a' & b' & Heq' & Ha' & Hb').
  injection Heq as -> ->. injection Heq' as -> ->.
  assert (i = j) by (by eapply NoDup_lookup). subst j. congruence.
Qed.

Lemma fresh_length_unknown (iteration : gset string -> list string)
    (self : ColorMapper.t) (items : list Item.t) :
  set_iteration iteration ->
  length (fresh_names (ColorMapper.base_colors self)
            (iteration (reported_names items)))
  = size (unknown_names self items).
Proof.
  intros Hit. destruct (Hit (reported_names items)) as [Hnd Hel].
  unfold size, set_size. simpl. apply Permutation_length.
  apply NoDup_Permutation;
    [by apply fresh_names_NoDup | apply NoDup_elements |].
  intros x. rewrite fresh_names_elem, elem_of_elements. unfold unknown_names.
  rewrite elem_of_filter, Hel. tauto.
Qed.

(** X10. As long as at most 12 reported names are unknown to
    [base_colors], the default mapper gives pairwise different colours to
    all keys of its map, base names included. *)
Theorem color_map_distinct_colors (iteration : gset string -> list string)
    (packed unfitted : list Item.t) (color_map : gmap string string) :
  set_iteration iteration ->
  (size (unknown_names ColorMapper.__init__ (packed ++ unfitted)) <= 12)%nat ->
  ColorMapper.generate_color_map iteration ColorMapper.__init__ packed
    unfitted = Ok color_map ->
  forall k1 k2 c,
    color_map !! k1 = Some c -> color_map !! k2 = Some c -> k1 = k2.
Proof.
  intros Hit Hsize Hcm k1 k2 c H1 H2.
  rewrite generate_color_map_closed in Hcm by done.
  injection Hcm as <-. rewrite default_color_map_as_zip in H1, H2.
  apply elem_of_list_to_map_2 in H1, H2.
  eapply zip_same_value; [| exact H1 | exact H2].
  apply default_colors_NoDup.
  rewrite (fresh_length_unknown iteration ColorMapper.__init__) by done. lia.
Qed.

Lemma color_map_distinct_colors_witness :
  match
    ColorMapper.generate_color_map elements ColorMapper.__init__
      [Item.__init__ "crate_0" 1 1 1 1] []
  with
  | Ok color_map => color_map !! "crate" <> Some "#FF6B6B"
  | Raise _ => False
  end.
Proof.
  pose proof (generate_color_map_closed elements ColorMapper.__init__
                [Item.__init__ "crate_0" 1 1 1 1] [] elements_iteration
                default_palette_nonempty) as Hcm.
  simpl in Hcm. rewrite Hcm. intros Hk.
  assert (Heq : "crate" = "small"); [| discriminate Heq].
  apply (color_map_distinct_colors elements
           [Item.__init__ "crate_0" 1 1 1 1] [] _ elements_iteration)
    with (c := "#FF6B6B") (2 := Hcm).
  - vm_compute. lia.
  - exact Hk.
  - apply lookup_union_Some_l. reflexivity.
Defined.

(** X11. The palette is used cyclically, starting behind the six base
    colours: with more than 12 unknown names the default mapper gives an
    unknown name the colour ["#FF6B6B"] that ["small"] already has. *)
Theorem color_map_wraps_around (iteration : gset string -> list string)
    (packed unfitted : list Item.t) (color_map : gmap string string) :
  set_iteration iteration ->
  (12 < size (unknown_names ColorMapper.__init__ (packed ++ unfitted)))%nat ->
  ColorMapper.generate_color_map iteration ColorMapper.__init__ packed
    unfitted = Ok color_map ->
  color_map !! "small" = Some "#FF6B6B"
  /\ exists k : string,
       k <> "small" /\ color_map !! k = Some "#FF6B6B".
Proof.
  intros Hit Hsize Hcm.
  rewrite generate_color_map_closed in Hcm by done.
  injection Hcm as <-.
  split; [by apply lookup_union_Some_l |].
  rewrite <- (fresh_length_unknown iteration) in Hsize by done.
  set (ns := iteration (reported_names (packed ++ unfitted))) in *.
  set (fresh := fresh_names (ColorMapper.base_colors ColorMapper.__init__) ns)
    in *.
  destruct (lookup_lt_is_Some_2 fresh 12) as [k Hk]; [lia |].
  assert (Hfresh : k ∈ fresh) by (by eapply list_elem_of_lookup_2).
  apply fresh_names_elem in Hfresh as [_ Hbase].
  exists k. split; [by intros -> |].
  rewrite lookup_union_r by done.
  apply elem_of_list_to_map_1.
  - rewrite fst_zip by (rewrite length_map, length_seq; lia).
    apply fresh_names_NoDup, Hit.
  - apply list_elem_of_lookup. exists 12%nat.
    apply lookup_zip_with_Some. exists k, "#FF6B6B".
    split; [done |]. split; [done |].
    change (map ?f ?l) with (f <$> l).
    rewrite list_lookup_fmap, lookup_seq_lt by exact Hsize. reflexivity.
Qed.

Lemma color_map_wraps_around_witness :
  match
    ColorMapper.generate_color_map elements ColorMapper.__init__
      thirteen_crates []
  with
  | Ok color_map =>
      exists k : string, k <> "small" /\ color_map !! k = Some "#FF6B6B"
  | Raise _ => False
  end.
Proof.
  pose proof (generate_color_map_closed elements ColorMapper.__init__
                thirteen_crates [] elements_iteration
                default_palette_nonempty) as Hcm.
  simpl in Hcm. rewrite Hcm.
  apply (color_map_wraps_around elements thirteen_crates [] _
           elements_iteration); [| exact Hcm].
  vm_compute. lia.
Defined.

Lemma assign_color_known (self : ColorMapper.t) (ns : list string)
    (m : gmap string string) (idx : nat) :
  Forall (fun n => is_Some (m !! n)) ns ->
  fold_left (ColorMapper.assign_color self) ns (Ok (m, idx)) = Ok (m, idx).
Proof.
  induction 1 as [| n ns [c Hn] _ IH]; simpl; [done |].
  by rewrite Hn.
Qed.

Lemma assign_color_empty_palette (self : ColorMapper.t) (ns : list string)
    (m : gmap string string) (idx : nat) (n : string) :
  ColorMapper.available_colors self = [] ->
  n ∈ ns -> m !! n = None ->
  fold_left (ColorMapper.assign_color self) ns (Ok (m, idx))
  = Raise ZeroDivisionError.
Proof.
  intros Hempty Hin Hn. induction Hin as [n ns | n n' ns Hin IH]; simpl.
  - rewrite Hn, Hempty. simpl. apply assign_color_raise.
  - destruct (m !! n') as [c |] eqn:Hn'; simpl; [exact (IH Hn) |].
    rewrite Hempty. simpl. apply assign_color_raise.
Qed.

(** X12. A mapper whose [available_colors] is empty cannot colour a new
    name: [generate_color_map] raises [ZeroDivisionError] as soon as one
    reported name is missing from [base_colors], and returns [base_colors]
    unchanged when none is. *)
Theorem color_map_empty_palette (iteration : gset string -> list string)
    (self : ColorMapper.t) (packed unfitted : list Item.t) :
  set_iteration iteration ->
  ColorMapper.available_colors self = [] ->
  ColorMapper.generate_color_map iteration self packed unfitted
  = if decide (unknown_names self (packed ++ unfitted) = ∅)
    then Ok (ColorMapper.base_colors self)
    else Raise ZeroDivisionError.
Proof.
  intros Hit Hempty. unfold ColorMapper.generate_color_map.
  rewrite add_names_ok. simpl. rewrite add_names_ok. simpl.
  replace (∅ ∪ reported_names packed ∪ reported_names unfitted)
    with (reported_names (packed ++ unfitted))
    by (unfold reported_names;
        rewrite map_app, list_to_set_app_L, (left_id_L ∅ (∪)); done).
  destruct (Hit (reported_names (packed ++ unfitted))) as [_ Hel].
  destruct (decide _) as [Hnone | Hsome].
  - rewrite assign_color_known; [done |].
    apply Forall_forall. intros n Hn. apply Hel in Hn.
    destruct (ColorMapper.base_colors self !! n) eqn:Hb; [by eexists |].
    exfalso. apply (not_elem_of_empty (C := gset string) n).
    rewrite <- Hnone. unfold unknown_names. by apply elem_of_filter.
  - apply set_choose_L in Hsome as [n Hn]. unfold unknown_names in Hn.
    apply elem_of_filter in Hn as [Hb Hn].
    rewrite (assign_color_empty_palette self _ _ _ n); [done | done | |done].
    by apply Hel.
Qed.

Lemma color_map_empty_palette_witness :
  ColorMapper.generate_color_map elements (ColorMapper.mk ∅ [])
    [Item.__init__ "crate_0" 1 1 1 1] []
  = Raise ZeroDivisionError.
Proof.
  rewrite (color_map_empty_palette elements (ColorMapper.mk ∅ [])
             [Item.__init__ "crate_0" 1 1 1 1] [] elements_iteration eq_refl).
  reflexivity.
Defined.

(** ** The drawing code *)

(** X13. [_draw_container_frame] never raises and draws the complete
    wireframe of the container: twelve lines, each between two corners of
    the box from the origin to (width, height, depth) that differ on one
    axis, and no edge of the box twice, in either direction. *)
Theorem container_frame_is_wireframe (ax : PackingVisualizer.Axes)
    (container : Container.t) :
  let hi :=
    (Container.width container, Container.height container,
     Container.depth container) in
  exists edges : list (bits * bits),
    PackingVisualizer._draw_container_frame ax container
    = Return
        (draw ax
           (map (fun e =>
                   PackingVisualizer.plot3D (corner (0, 0, 0) hi e.1)
                     (corner (0, 0, 0) hi e.2))
                edges))
    /\ length edges = 12%nat
    /\ Forall (fun e => adjacent e.1 e.2 = true) edges
    /\ NoDup (edges ++ map reversed edges).
Proof.
  intros hi. subst hi.
  exists box_edges.
  split; [by destruct container | split; [done | split]].
  - repeat constructor.
  - refine (bool_decide_unpack _ _). by vm_compute.
Qed.

(** X14. [_draw_cargo_box] raises [ValueError] unless [size] has exactly
    three elements; then it adds one collection of six polygons, which are
    the six sides of the box from [position] to [position + size]: every
    polygon lists four different corners of the box in the order of a
    circuit, and each side of the box is the polygon of one of them. *)
Theorem cargo_box_is_closed_box (ax : PackingVisualizer.Axes) (x y z : Q)
    (size : list Q) (color : string) (alpha : Q) :
  match size with
  | [w; h; d] =>
      exists faces : list (list bits),
        PackingVisualizer._draw_cargo_box ax (x, y, z) size color alpha
        = Return
            (PackingVisualizer.add_artist ax
               (PackingVisualizer.add_collection3d
                  (map (map (corner (x, y, z) (x + w, y + h, z + d))) faces)
                  alpha color))
        /\ length faces = 6%nat
        /\ Forall (fun face => circuit face = true) faces
        /\ forall a v, exists face, face ∈ faces /\ on_side a v face = true
  | _ =>
      PackingVisualizer._draw_cargo_box ax (x, y, z) size color alpha
      = Throw ValueError
  end.
Proof.
  destruct size as [| w [| h [| d [| e size]]]]; try reflexivity.
  exists box_faces.
  split; [reflexivity | split; [reflexivity | split]].
  - repeat constructor.
  - intros a v. apply Exists_exists.
    destruct a, v;
      repeat (first [by apply Exists_cons_hd | apply Exists_cons_tl]).
Qed.

Lemma max3_cases (a b c : Q) :
  (max3 a b c = a \/ max3 a b c = b \/ max3 a b c = c)
  /\ a <= max3 a b c /\ b <= max3 a b c /\ c <= max3 a b c.
Proof.
  unfold max3.
  destruct (Qlt_bool_cases a b) as [[-> Hab] | [-> Hab]];
    [destruct (Qlt_bool_cases b c) as [[-> Hc] | [-> Hc]]
    | destruct (Qlt_bool_cases a c) as [[-> Hc] | [-> Hc]]];
    (split; [tauto | lra]).
Qed.

Lemma truediv_ok (a b : Q) : ~ b == 0 -> truediv a b = Ok (a / b).
Proof.
  intros Hb. unfold truediv.
  by rewrite (proj2 (Qeq_bool_false b 0) Hb).
Qed.

Lemma truediv_zero (a b : Q) : b == 0 -> truediv a b = Raise ZeroDivisionError.
Proof.
  intros Hb. unfold truediv. by rewrite (proj2 (Qeq_bool_iff b 0) Hb).
Qed.

Lemma setup_3d_plot_ok (ax : PackingVisualizer.Axes) (container : Container.t) :
  let w := Container.width container in
  let h := Container.height container in
  let d := Container.depth container in
  ~ max3 w h d == 0 ->
  PackingVisualizer._setup_3d_plot ax container
  = Return
      (PackingVisualizer.mk_axes (PackingVisualizer.artists ax)
         (Some (0, w)) (Some (0, h)) (Some (0, d))
         (Some ("X (m)", "Y (m)", "Z (m)"))
         (Some [w / max3 w h d; h / max3 w h d; d / max3 w h d])
         (Some (20, -60))).
Proof.
  intros w h d Hm. subst w h d. unfold PackingVisualizer._setup_3d_plot.
  destruct container as [n w h d mw b]. simpl in *. unfold float.
  by rewrite !truediv_ok.
Qed.

Lemma setup_3d_plot_zero (ax : PackingVisualizer.Axes)
    (container : Container.t) :
  max3 (Container.width container) (Container.height container)
    (Container.depth container) == 0 ->
  PackingVisualizer._setup_3d_plot ax container
  = Throw (Builtin ZeroDivisionError).
Proof.
  intros Hm. unfold PackingVisualizer._setup_3d_plot.
  destruct container as [n w h d mw b]. simpl in *. unfold float.
  rewrite (truediv_zero w) by exact Hm. reflexivity.
Qed.

(** X15. For a container with positive dimensions [_setup_3d_plot] sets
    the limits of the three axes to [0, width], [0, height] and
    [0, depth], leaves what is drawn untouched, and sets a box aspect that
    is proportional to the dimensions with its largest entry equal to 1. *)
Theorem box_aspect_is_normalised (ax : PackingVisualizer.Axes)
    (container : Container.t) :
  let w := Container.width container in
  let h := Container.height container in
  let d := Container.depth container in
  0 < w -> 0 < h -> 0 < d ->
  exists ax' aw ah ad,
    PackingVisualizer._setup_3d_plot ax container = Return ax'
    /\ PackingVisualizer.artists ax' = PackingVisualizer.artists ax
    /\ PackingVisualizer.xlim ax' = Some (0, w)
    /\ PackingVisualizer.ylim ax' = Some (0, h)
    /\ PackingVisualizer.zlim ax' = Some (0, d)
    /\ PackingVisualizer.box_aspect ax' = Some [aw; ah; ad]
    /\ (0 < aw <= 1 /\ 0 < ah <= 1 /\ 0 < ad <= 1)
    /\ (aw == 1 \/ ah == 1 \/ ad == 1)
    /\ aw * h == ah * w /\ ah * d == ad * h.
Proof.
  intros w h d Hw Hh Hd.
  destruct (max3_cases w h d) as (Hmax & Hmw & Hmh & Hmd).
  assert (Hm : 0 < max3 w h d) by lra.
  assert (Hne : ~ max3 w h d == 0) by lra.
  eexists _, _, _, _. split; [by apply setup_3d_plot_ok |].
  simpl. fold w h d. do 5 (split; [reflexivity |]).
  set (m := max3 w h d) in *.
  assert (Hdiv : forall a, 0 < a -> a <= m -> 0 < a / m <= 1).
  { intros a Ha Ham. split.
    - apply Qlt_shift_div_l; lra.
    - apply Qle_shift_div_r; lra. }
  split; [auto |]. split.
  - destruct Hmax as [Heq | [Heq | Heq]];
      [left | right; left | right; right];
      rewrite <- Heq at 1; by field.
  - split; field; done.
Qed.

Lemma box_aspect_is_normalised_witness :
  exists ax' aw ah ad,
    PackingVisualizer._setup_3d_plot PackingVisualizer.add_subplot
      Container.default = Return ax'
    /\ PackingVisualizer.box_aspect ax' = Some [aw; ah; ad]
    /\ aw == 1.
Proof.
  destruct (box_aspect_is_normalised PackingVisualizer.add_subplot
              Container.default)
    as (ax' & aw & ah & ad & Hax & _ & _ & _ & _ & Hasp & _);
    [reflexivity | reflexivity | reflexivity |].
  exists ax', aw, ah, ad. split; [exact Hax |]. split; [exact Hasp |].
  vm_compute in Hax. injection Hax as <-.
  simpl in Hasp. injection Hasp as <- _ _. reflexivity.
Defined.

Lemma Forall2_impl_in_l {A B} (P Q : A -> B -> Prop) (l : list A)
    (k : list B) :
  Forall2 P l k ->
  (forall x y, x ∈ l -> P x y -> Q x y) ->
  Forall2 Q l k.
Proof.
  induction 1 as [| x y l k Hxy _ IH]; intros Himp; constructor.
  - apply Himp; [left | done].
  - apply IH. intros x' y' Hin. apply Himp. by right.
Qed.

Lemma draw_artists (ax : PackingVisualizer.Axes)
    (l : list PackingVisualizer.artist) :
  PackingVisualizer.artists (draw ax l) = PackingVisualizer.artists ax ++ l.
Proof.
  unfold draw. revert ax. induction l as [| a l IH]; intros ax; simpl.
  - by rewrite app_nil_r.
  - rewrite IH. simpl. by rewrite <- app_assoc.
Qed.

Lemma draw_container_frame_ok (ax : PackingVisualizer.Axes)
    (container : Container.t) :
  exists frame,
    PackingVisualizer._draw_container_frame ax container
    = Return (draw ax frame)
    /\ length frame = 12%nat
    /\ Forall (fun a => is_line a = true) frame.
Proof.
  exists (map (fun e : bits * bits =>
                 PackingVisualizer.plot3D
                   (corner (0, 0, 0)
                      (Container.width container, Container.height container,
                       Container.depth container) e.1)
                   (corner (0, 0, 0)
                      (Container.width container, Container.height container,
                       Container.depth container) e.2))
              box_edges).
  split; [by destruct container |].
  split; [reflexivity | repeat constructor].
Qed.

Lemma rotated_dimensions_three (item : Item.t) :
  exists a b c, get_rotated_dimensions item = [a; b; c].
Proof.
  pose proof (rotated_dimensions_cases item) as Hc. simpl in Hc.
  repeat (apply elem_of_cons in Hc as [-> | Hc]; [by eexists _, _, _ |]).
  by apply elem_of_nil in Hc.
Qed.

Lemma draw_packed_items_ok (ax : PackingVisualizer.Axes)
    (items : list Item.t) (color_map : gmap string string) :
  exists boxes,
    PackingVisualizer._draw_packed_items ax items color_map
    = Return (draw ax boxes)
    /\ Forall2
         (fun item a =>
            forall ax0,
              PackingVisualizer._draw_cargo_box ax0 (drawn_position item)
                (get_rotated_dimensions item)
                (default "#999999" (color_map !! reported_name item)) 0.7
              = Return (PackingVisualizer.add_artist ax0 a))
         items boxes.
Proof.
  unfold PackingVisualizer._draw_packed_items. revert ax.
  induction items as [| item items IH]; intros ax.
  - exists []. split; [reflexivity | constructor].
  - cbn [fold_left].
    change (mret ax ≫= ?k) with (k ax). cbn beta.
    rewrite split_head. cbn [lift].
    step_return.
    destruct (rotated_dimensions_three item) as (a & b & c & Hdims).
    fold (reported_name item). fold (drawn_position item).
    rewrite Hdims.
    set (box :=
           PackingVisualizer.add_collection3d
             (let '(x, y, z) := drawn_position item in
              [[(x, y, z); (x + a, y, z); (x + a, y + b, z); (x, y + b, z)];
               [(x, y, z + c); (x + a, y, z + c); (x + a, y + b, z + c);
                (x, y + b, z + c)];
               [(x, y, z); (x, y, z + c); (x + a, y, z + c); (x + a, y, z)];
               [(x, y + b, z); (x, y + b, z + c); (x + a, y + b, z + c);
                (x + a, y + b, z)];
               [(x, y, z); (x, y, z + c); (x, y + b, z + c); (x, y + b, z)];
               [(x + a, y, z); (x + a, y, z + c); (x + a, y + b, z + c);
                (x + a, y + b, z)]])
             0.7 (default "#999999" (color_map !! reported_name item))).
    assert (Hbox : forall ax0,
               PackingVisualizer._draw_cargo_box ax0 (drawn_position item)
                 [a; b; c]
                 (default "#999999" (color_map !! reported_name item)) 0.7
               = Return (PackingVisualizer.add_artist ax0 box)).
    { intros ax0. subst box. by destruct (drawn_position item) as [[x y] z]. }
    rewrite Hbox.
    destruct (IH (PackingVisualizer.add_artist ax box))
      as (boxes & Heq & Hall).
    exists (box :: boxes). split; [exact Heq |].
    constructor; [by rewrite Hdims | exact Hall].
Qed.

Lemma color_map_item (iteration : gset string -> list string)
    (self : ColorMapper.t) (packed unfitted : list Item.t)
    (color_map : gmap string string) (item : Item.t) :
  set_iteration iteration ->
  ColorMapper.available_colors self <> [] ->
  ColorMapper.generate_color_map iteration self packed unfitted
  = Ok color_map ->
  item ∈ packed ++ unfitted ->
  is_Some (color_map !! reported_name item).
Proof.
  intros Hit Hne Hcm Hin.
  rewrite generate_color_map_closed in Hcm by done. injection Hcm as <-.
  rewrite lookup_union_is_Some, zip_lookup_is_Some
    by (by rewrite length_map, length_seq).
  rewrite fresh_names_elem.
  destruct (Hit (reported_names (packed ++ unfitted))) as [_ Hel].
  rewrite Hel, reported_names_elem.
  destruct (ColorMapper.base_colors self !! reported_name item) eqn:Hb;
    [left; by eexists |].
  right. split; [by exists item | done].
Qed.

Lemma default_color_in_palette (iteration : gset string -> list string)
    (packed unfitted : list Item.t) (color_map : gmap string string)
    (k c : string) :
  set_iteration iteration ->
  ColorMapper.generate_color_map iteration ColorMapper.__init__ packed
    unfitted = Ok color_map ->
  color_map !! k = Some c ->
  c ∈ ColorMapper.available_colors ColorMapper.__init__.
Proof.
  intros Hit Hcm Hk.
  rewrite generate_color_map_closed in Hcm by done. injection Hcm as <-.
  apply lookup_union_Some_raw in Hk as [Hk | [_ Hk]].
  - by eapply default_base_in_palette.
  - apply elem_of_list_to_map_2, elem_of_zip_r in Hk.
    change (map ?f ?l) with (f <$> l) in Hk.
    apply list_elem_of_fmap in Hk as (i & -> & _).
    by apply color_at_palette.
Qed.

Lemma visualize_unfold (iteration : gset string -> list string)
    (self : PackingVisualizer.t) (container : Container.t)
    (engine : PackingEngine.t) (packed unfitted : list Item.t)
    (color_map : gmap string string) :
  PackingEngine.packed_items engine = Ok packed ->
  PackingEngine.unfitted_items engine = Ok unfitted ->
  ColorMapper.generate_color_map iteration
    (PackingVisualizer.color_mapper self) packed unfitted = Ok color_map ->
  exists frame boxes,
    PackingVisualizer.visualize iteration self container engine
    = PackingVisualizer._setup_3d_plot
        (draw PackingVisualizer.add_subplot (frame ++ boxes)) container
    /\ length frame = 12%nat
    /\ Forall (fun a => is_line a = true) frame
    /\ Forall2
         (fun item a =>
            forall ax0,
              PackingVisualizer._draw_cargo_box ax0 (drawn_position item)
                (get_rotated_dimensions item)
                (default "#999999" (color_map !! reported_name item)) 0.7
              = Return (PackingVisualizer.add_artist ax0 a))
         packed boxes.
Proof.
  intros Hp Hu Hcm. unfold PackingVisualizer.visualize.
  destruct (draw_container_frame_ok PackingVisualizer.add_subplot container)
    as (frame & -> & Hlen & Hlines).
  step_return.
  rewrite Hp, Hu. cbn [lift].
  step_return.
  rewrite Hcm. cbn [lift].
  step_return.
  destruct (draw_packed_items_ok (draw PackingVisualizer.add_subplot frame)
              packed color_map) as (boxes & -> & Hboxes).
  step_return.
  exists frame, boxes. split; [| done].
  unfold draw. by rewrite fold_left_app.
Qed.

(** X16. After [pack()], for a visualizer with the default colour mapper
    and a container whose largest dimension is not 0, [visualize] returns
    axes on which exactly this is drawn: the twelve lines of the frame,
    then one polygon collection for each packed item, in the order of
    [packed_items]. The collection of an item is what [_draw_cargo_box]
    draws at the item's position with its rotated dimensions and opacity
    0.7, in the colour the generated map has for the item's name, which is
    one of the palette and never the fallback grey. *)
Theorem visualize_draws_packed_items (iteration : gset string -> list string)
    (self : PackingVisualizer.t) (container : Container.t)
    (engine : PackingEngine.t) (packed : list Item.t) :
  set_iteration iteration ->
  PackingVisualizer.color_mapper self = ColorMapper.__init__ ->
  PackingEngine.packed_items engine = Ok packed ->
  ~ max3 (Container.width container) (Container.height container)
      (Container.depth container) == 0 ->
  exists ax frame boxes unfitted color_map,
    PackingVisualizer.visualize iteration self container engine = Return ax
    /\ PackingVisualizer.artists ax = frame ++ boxes
    /\ length frame = 12%nat
    /\ Forall (fun a => is_line a = true) frame
    /\ PackingEngine.unfitted_items engine = Ok unfitted
    /\ ColorMapper.generate_color_map iteration ColorMapper.__init__ packed
         unfitted = Ok color_map
    /\ Forall2
         (fun item a =>
            exists color,
              color_map !! reported_name item = Some color
              /\ color ∈ ColorMapper.available_colors ColorMapper.__init__
              /\ color <> "#999999"
              /\ forall ax0,
                   PackingVisualizer._draw_cargo_box ax0 (drawn_position item)
                     (get_rotated_dimensions item) color 0.7
                   = Return (PackingVisualizer.add_artist ax0 a))
         packed boxes.
Proof.
  intros Hit Hmapper Hp Hmax.
  destruct (unfitted_items_ok engine (packed_items_flag _ _ Hp))
    as [unfitted Hu].
  pose proof (generate_color_map_closed iteration ColorMapper.__init__
                packed unfitted Hit default_palette_nonempty) as Hcm.
  cbv zeta in Hcm. revert Hcm.
  generalize (ColorMapper.base_colors ColorMapper.__init__
              ∪ list_to_map
                  (zip
                     (fresh_names
                        (ColorMapper.base_colors ColorMapper.__init__)
                        (iteration (reported_names (packed ++ unfitted))))
                     (map (color_at ColorMapper.__init__)
                        (seq
                           (size
                              (ColorMapper.base_colors ColorMapper.__init__))
                           (length
                              (fresh_names
                                 (ColorMapper.base_colors
                                    ColorMapper.__init__)
                                 (iteration
                                    (reported_names
                                       (packed ++ unfitted))))))))).
  intros color_map Hcm.
  destruct (visualize_unfold iteration self container engine packed unfitted
              color_map Hp Hu)
    as (frame & boxes & Hvis & Hlen & Hlines & Hboxes);
    [by rewrite Hmapper |].
  rewrite (setup_3d_plot_ok _ _ Hmax) in Hvis.
  eexists _, frame, boxes, unfitted, color_map.
  split; [exact Hvis |]. cbn [PackingVisualizer.artists].
  split; [by rewrite draw_artists |].
  do 4 (split; [done |]).
  clear Hvis.
  eapply Forall2_impl_in_l; [exact Hboxes |].
  intros item a Hitem Hbox.
  destruct (color_map_item iteration ColorMapper.__init__ packed unfitted
              color_map item Hit default_palette_nonempty Hcm)
    as [color Hcolor]; [apply elem_of_app; by left |].
  exists color. split; [exact Hcolor |].
  pose proof (default_color_in_palette iteration packed unfitted color_map
                _ _ Hit Hcm Hcolor) as Hin.
  split; [exact Hin |]. split.
  - intros ->. simpl in Hin.
    repeat (apply elem_of_cons in Hin as [Hin | Hin]; [done |]).
    by apply elem_of_nil in Hin.
  - intros ax0. specialize (Hbox ax0). by rewrite Hcolor in Hbox.
Qed.

Lemma visualize_draws_packed_items_witness :
  exists ax,
    PackingVisualizer.visualize elements PackingVisualizer.__init__
      Container.default
      (packing_run Container.default [mk_cargo "crate" 1 1 1 10 2])
    = Return ax
    /\ length (PackingVisualizer.artists ax) = 14%nat.
Proof.
  edestruct (visualize_draws_packed_items elements PackingVisualizer.__init__
               Container.default
               (packing_run Container.default [mk_cargo "crate" 1 1 1 10 2]))
    as (ax & frame & boxes & unfitted & color_map & Hvis & Hart & Hlen & _
        & _ & _ & Hboxes).
  - apply elements_iteration.
  - reflexivity.
  - reflexivity.
  - by vm_compute.
  - exists ax. split; [exact Hvis |].
    rewrite Hart, length_app, Hlen. apply Forall2_length in Hboxes.
    by rewrite <- Hboxes.
Defined.

(** X17. [visualize] raises in two situations only: the [RuntimeError] of
    [packed_items] when [pack()] has not run, and a [ZeroDivisionError]
    when the largest dimension of the container is 0. It never fails on
    an item, whatever its name, position or rotation index. *)
Theorem visualize_raises_only (iteration : gset string -> list string)
    (self : PackingVisualizer.t) (container : Container.t)
    (engine : PackingEngine.t) :
  set_iteration iteration ->
  ColorMapper.available_colors (PackingVisualizer.color_mapper self) <> [] ->
  let max_dim :=
    max3 (Container.width container) (Container.height container)
      (Container.depth container) in
  match PackingVisualizer.visualize iteration self container engine with
  | Return _ => PackingEngine._packed engine = true /\ ~ max_dim == 0
  | Throw e =>
      (e = Builtin PackingEngine.not_packed_yet
       /\ PackingEngine._packed engine = false)
      \/ (e = Builtin ZeroDivisionError
          /\ PackingEngine._packed engine = true /\ max_dim == 0)
  end.
Proof.
  intros Hit Hne max_dim.
  destruct (PackingEngine._packed engine) eqn:Hpacked.
  - destruct (packed_items_ok engine Hpacked) as [packed Hp].
    destruct (unfitted_items_ok engine Hpacked) as [unfitted Hu].
    pose proof (generate_color_map_closed iteration
                  (PackingVisualizer.color_mapper self) packed unfitted Hit
                  Hne) as Hcm.
    cbv zeta in Hcm.
    destruct (visualize_unfold iteration self container engine packed
                unfitted _ Hp Hu Hcm) as (frame & boxes & -> & _).
    destruct (Qeq_dec max_dim 0) as [Hzero | Hpos].
    + rewrite setup_3d_plot_zero by exact Hzero. right. done.
    + rewrite setup_3d_plot_ok by exact Hpos. done.
  - unfold PackingVisualizer.visualize.
    destruct (draw_container_frame_ok PackingVisualizer.add_subplot container)
      as (frame & -> & _).
    unfold PackingEngine.packed_items. rewrite Hpacked. left. done.
Qed.

Lemma visualize_raises_only_witness :
  PackingVisualizer.visualize elements PackingVisualizer.__init__
    Container.default
    (session [AddContainer Container.default;
              AddItems [mk_cargo "crate" 1 1 1 10 2]])
  = Throw (Builtin PackingEngine.not_packed_yet).
Proof.
  pose proof (visualize_raises_only elements PackingVisualizer.__init__
                Container.default
                (session [AddContainer Container.default;
                          AddItems [mk_cargo "crate" 1 1 1 10 2]])
                elements_iteration default_palette_nonempty) as H.
  cbv zeta in H.
  destruct (PackingVisualizer.visualize _ _ _ _) as [ax | e].
  - destruct H as [H _]. discriminate H.
  - destruct H as [[-> _] | (_ & H & _)]; [reflexivity | discriminate H].
Defined.

(** ** The result printer and the application class *)

Lemma split_fold_ok (its : list Item.t) :
  fold_left
    (fun (acc : result ()) item =>
       _ ← acc;
       _ ← getitem (split "_" (Item.name item)) 0;
       mret ())
    its (Ok ())
  = Ok ().
Proof.
  induction its as [| item its IH]; [done |].
  simpl. rewrite split_head. exact IH.
Qed.

Lemma unfitted_stats_ok (engine : PackingEngine.t) (unfitted : list Item.t) :
  PackingEngine.unfitted_items engine = Ok unfitted ->
  PackingEngine.get_unfitted_stats engine = Ok (tally unfitted ∅).
Proof.
  intros Hu. unfold PackingEngine.get_unfitted_stats. rewrite Hu.
  apply stats_fold_tally.
Qed.

Lemma print_results_packed (container : Container.t)
    (engine : PackingEngine.t) (color_map : gmap string string) :
  PackingEngine._packed engine = true ->
  ResultPrinter.print_results container engine color_map
  = PackingEngine.get_load_efficiency engine container.
Proof.
  intros Hpacked. unfold ResultPrinter.print_results.
  destruct (packed_items_ok engine Hpacked) as [packed Hp].
  destruct (unfitted_items_ok engine Hpacked) as [unfitted Hu].
  rewrite Hp, Hu, (unfitted_stats_ok engine unfitted Hu).
  cbn [mbind result_bind].
  destruct (PackingEngine.get_load_efficiency engine container)
    as [efficiency | e]; [| done].
  destruct unfitted as [| item unfitted]; [done |].
  change (mret ()) with (Ok ()). by rewrite split_fold_ok.
Qed.

(** X18. [ResultPrinter.print_results] returns what [get_load_efficiency]
    returns, or raises what it raises, once [pack()] has run; before that
    it raises the [RuntimeError] of [packed_items], where
    [get_load_efficiency] itself returns 0.0. The colour map has no
    influence on the outcome. *)
Theorem print_results_is_load_efficiency (container : Container.t)
    (engine : PackingEngine.t) (color_map : gmap string string) :
  ResultPrinter.print_results container engine color_map
  = if PackingEngine._packed engine
    then PackingEngine.get_load_efficiency engine container
    else Raise PackingEngine.not_packed_yet.
Proof.
  destruct (PackingEngine._packed engine) eqn:Hpacked.
  - by apply print_results_packed.
  - unfold ResultPrinter.print_results, PackingEngine.packed_items.
    by rewrite Hpacked.
Qed.

Lemma pack_items_after_setup (self : ContainerPackingApp.t)
    (w h d mw : Q) (items : list CargoRecord) :
  let c := Container.__init__ "Container" w h d mw in
  ContainerPackingApp.pack_items
    (ContainerPackingApp.setup_container self w h d mw) items
  = Return
      (ContainerPackingApp.mk (ContainerPackingApp.results_dir self)
         (Some (Container.bin c).2) (Some (packing_run c items))
         (ContainerPackingApp.visualizer self)
         (ContainerPackingApp.color_mapper self)).
Proof. reflexivity. Qed.

Lemma packing_run_packed (c : Container.t) (items : list CargoRecord) :
  PackingEngine._packed (packing_run c items) = true.
Proof. unfold packing_run. by rewrite session_packed. Qed.

Lemma app_print_results_packed (iteration : gset string -> list string)
    (self : ContainerPackingApp.t) (c : Container.t)
    (engine : PackingEngine.t) :
  set_iteration iteration ->
  ColorMapper.available_colors (ContainerPackingApp.color_mapper self)
  <> [] ->
  ContainerPackingApp.packing_engine self = Some engine ->
  ContainerPackingApp.container self = Some c ->
  PackingEngine._packed engine = true ->
  ContainerPackingApp.print_results iteration self
  = lift (PackingEngine.get_load_efficiency engine c).
Proof.
  intros Hit Hne He Hc Hpacked. unfold ContainerPackingApp.print_results.
  rewrite He, Hc.
  destruct (packed_items_ok engine Hpacked) as [packed Hp].
  destruct (unfitted_items_ok engine Hpacked) as [unfitted Hu].
  rewrite Hp, Hu. cbn [lift]. step_return.
  rewrite generate_color_map_closed by done. cbn [lift]. step_return.
  by rewrite print_results_packed.
Qed.

(** X19. On an application object whose colour mapper has a palette,
    [setup_container] followed by [pack_items] never raises and leaves
    the engine of a complete packing run on the container with the given
    dimensions; [print_results] then returns the load efficiency of that
    run, or raises the [ZeroDivisionError] of [get_load_efficiency]. *)
Theorem app_prints_run_efficiency (iteration : gset string -> list string)
    (self : ContainerPackingApp.t) (w h d mw : Q)
    (items : list CargoRecord) :
  set_iteration iteration ->
  ColorMapper.available_colors (ContainerPackingApp.color_mapper self)
  <> [] ->
  let c := Container.__init__ "Container" w h d mw in
  exists app,
    ContainerPackingApp.pack_items
      (ContainerPackingApp.setup_container self w h d mw) items
    = Return app
    /\ ContainerPackingApp.packing_engine app = Some (packing_run c items)
    /\ ContainerPackingApp.print_results iteration app
       = lift (PackingEngine.get_load_efficiency (packing_run c items) c).
Proof.
  intros Hit Hne c. eexists. split; [apply pack_items_after_setup |].
  split; [reflexivity |].
  rewrite (app_print_results_packed iteration _ (Container.bin c).2
             (packing_run c items));
    first [done | apply packing_run_packed].
Qed.

Lemma app_prints_run_efficiency_witness :
  exists app,
    ContainerPackingApp.pack_items
      (ContainerPackingApp.setup_container
         (ContainerPackingApp.__init__ "results") 2 1 1 100)
      [mk_cargo "crate" 1 1 1 10 1]
    = Return app
    /\ exists efficiency,
         ContainerPackingApp.print_results elements app = Return efficiency
         /\ efficiency == 50.
Proof.
  destruct (app_prints_run_efficiency elements
              (ContainerPackingApp.__init__ "results") 2 1 1 100
              [mk_cargo "crate" 1 1 1 10 1] elements_iteration
              default_palette_nonempty)
    as (app & Happ & _ & Hprint).
  exists app. split; [exact Happ |]. rewrite Hprint.
  eexists. split; [reflexivity |]. reflexivity.
Defined.

Lemma volume_nonzero_max3 (w h d : Q) :
  ~ w * h * d == 0 -> ~ max3 w h d == 0.
Proof.
  intros Hv Hm. apply Hv.
  destruct (max3_cases w h d) as [[Heq | [Heq | Heq]] _];
    rewrite Heq in Hm; rewrite Hm; ring.
Qed.

Lemma load_efficiency_packed (engine : PackingEngine.t)
    (container : Container.t) :
  PackingEngine._packed engine = true ->
  (Container.volume container == 0
   /\ PackingEngine.get_load_efficiency engine container
      = Raise ZeroDivisionError)
  \/ (~ Container.volume container == 0
      /\ exists efficiency,
           PackingEngine.get_load_efficiency engine container
           = Ok efficiency).
Proof.
  intros Hpacked. destruct (packed_items_ok engine Hpacked) as [packed Hp].
  rewrite (load_efficiency_unfold engine container packed Hp).
  destruct (Qeq_dec (Container.volume container) 0) as [Hzero | Hpos].
  - left. split; [exact Hzero |]. by rewrite truediv_zero.
  - right. split; [exact Hpos |]. rewrite truediv_ok by exact Hpos.
    by eexists.
Qed.

Lemma visualize_packed_ok (iteration : gset string -> list string)
    (self : PackingVisualizer.t) (container : Container.t)
    (engine : PackingEngine.t) :
  set_iteration iteration ->
  ColorMapper.available_colors (PackingVisualizer.color_mapper self) <> [] ->
  PackingEngine._packed engine = true ->
  ~ max3 (Container.width container) (Container.height container)
      (Container.depth container) == 0 ->
  exists ax,
    PackingVisualizer.visualize iteration self container engine = Return ax.
Proof.
  intros Hit Hne Hpacked Hmax.
  destruct (packed_items_ok engine Hpacked) as [packed Hp].
  destruct (unfitted_items_ok engine Hpacked) as [unfitted Hu].
  pose proof (generate_color_map_closed iteration
                (PackingVisualizer.color_mapper self) packed unfitted Hit
                Hne) as Hcm.
  cbv zeta in Hcm.
  destruct (visualize_unfold iteration self container engine packed
              unfitted _ Hp Hu Hcm) as (frame & boxes & -> & _).
  rewrite setup_3d_plot_ok by exact Hmax. by eexists.
Qed.

(** X20. [run], up to the figure, on an application object whose colour
    mappers have a palette. It completes exactly when the loader returned
    a list and the container has a volume other than 0; the engine it
    leaves is the one of a complete packing run on the catalogue, and the
    efficiency it reports is that run's. Otherwise it raises: the
    [NameError] of the loader when the CSV file is missing, a [TypeError]
    when the loader returned [None], and a [ZeroDivisionError] for a
    container of volume 0. *)
Theorem run_outcome (iteration : gset string -> list string)
    (sample_data : string -> cargo_items.file) (self : ContainerPackingApp.t)
    (dims : ContainerPackingApp.container_dims) (item_set : string) :
  set_iteration iteration ->
  ColorMapper.available_colors (ContainerPackingApp.color_mapper self)
  <> [] ->
  ColorMapper.available_colors
    (PackingVisualizer.color_mapper (ContainerPackingApp.visualizer self))
  <> [] ->
  let w := default 12.03 (ContainerPackingApp.dims_width dims) in
  let h := default 2.39 (ContainerPackingApp.dims_height dims) in
  let d := default 2.35 (ContainerPackingApp.dims_depth dims) in
  let mw := default 28000 (ContainerPackingApp.dims_max_weight dims) in
  let c := Container.__init__ "Container" w h d mw in
  match
    ContainerPackingApp.run iteration sample_data self dims item_set
  with
  | Return (app, efficiency, ax) =>
      exists items,
        ContainerPackingApp.load_items sample_data item_set
        = cargo_items.Loaded items
        /\ ~ w * h * d == 0
        /\ ContainerPackingApp.packing_engine app
           = Some (packing_run c items)
        /\ PackingEngine.get_load_efficiency (packing_run c items) c
           = Ok efficiency
        /\ PackingVisualizer.visualize iteration
             (ContainerPackingApp.visualizer self) c (packing_run c items)
           = Return ax
  | Throw e =>
      (e = NameError
       /\ ContainerPackingApp.load_items sample_data item_set
          = cargo_items.RaisedNameError)
      \/ (e = TypeError
          /\ ContainerPackingApp.load_items sample_data item_set
             = cargo_items.ReturnedNone)
      \/ (e = Builtin ZeroDivisionError
          /\ w * h * d == 0
          /\ exists items,
               ContainerPackingApp.load_items sample_data item_set
               = cargo_items.Loaded items)
  end.
Proof.
  intros Hit Hne Hvne w h d mw c. unfold ContainerPackingApp.run.
  fold w h d mw.
  destruct (ContainerPackingApp.load_items sample_data item_set)
    as [items | |]; [| right; left; done | left; done].
  rewrite pack_items_after_setup. fold c. step_return.
  set (app := ContainerPackingApp.mk _ _ _ _ _).
  rewrite (app_print_results_packed iteration app (Container.bin c).2
             (packing_run c items) Hit Hne eq_refl eq_refl
             (packing_run_packed c items)).
  change (PackingEngine.get_load_efficiency (packing_run c items)
            (Container.bin c).2)
    with (PackingEngine.get_load_efficiency (packing_run c items) c).
  destruct (load_efficiency_packed (packing_run c items) c
              (packing_run_packed c items))
    as [[Hzero ->] | [Hpos [efficiency Heff]]].
  - right. right. split; [done |]. split; [exact Hzero | by eexists].
  - rewrite Heff. cbn [lift]. step_return.
    unfold ContainerPackingApp.visualize_results.
    cbn [ContainerPackingApp.packing_engine ContainerPackingApp.container
         ContainerPackingApp.visualizer app].
    change (PackingVisualizer.visualize iteration
              (ContainerPackingApp.visualizer self) (Container.bin c).2
              (packing_run c items))
      with (PackingVisualizer.visualize iteration
              (ContainerPackingApp.visualizer self) c (packing_run c items)).
    destruct (visualize_packed_ok iteration
                (ContainerPackingApp.visualizer self) c (packing_run c items)
                Hit Hvne (packing_run_packed c items)
                (volume_nonzero_max3 w h d Hpos)) as [ax Hax].
    rewrite Hax. step_return. exists items.
    split; [reflexivity |]. split; [exact Hpos |].
    split; [reflexivity |]. split; [exact Heff | exact Hax].
Qed.

Lemma run_outcome_witness :
  exists app efficiency ax,
    ContainerPackingApp.run elements one_crate_files
      (ContainerPackingApp.__init__ "results")
      (ContainerPackingApp.mk_dims None None None None) "japanese"
    = Return (app, efficiency, ax)
    /\ PackingEngine.get_load_efficiency
         (packing_run Container.default [mk_cargo "crate" 1 1 1 10 2])
         Container.default
       = Ok efficiency.
Proof.
  pose proof (run_outcome elements one_crate_files
                (ContainerPackingApp.__init__ "results")
                (ContainerPackingApp.mk_dims None None None None) "japanese"
                elements_iteration default_palette_nonempty
                default_palette_nonempty) as H.
  cbv zeta in H.
  destruct (ContainerPackingApp.run _ _ _ _ _) as [[[app efficiency] ax] | e].
  - destruct H as (items & Hload & _ & _ & Heff & _).
    vm_compute in Hload. injection Hload as <-.
    exists app, efficiency, ax. split; [reflexivity | exact Heff].
  - exfalso.
    destruct H as [[_ H] | [[_ H] | (_ & H & _)]]; vm_compute in H;
      discriminate H.
Defined.

(** ** The scripts *)

Lemma packer_add_unit_items (r : CargoRecord) (ixs : list Z)
    (packer : Packer.t) :
  fold_left
    (fun packer i =>
       Packer.add_item packer
         (Item.__init__ (cargo_name r +:+ "_" +:+ pretty i) (cargo_width r)
            (cargo_height r) (cargo_depth r) (cargo_weight r)))
    ixs packer
  = Packer.mk (Packer.bins packer)
      (Packer.items packer
       ++ map (fun i : Z =>
                 Item.__init__ (cargo_name r +:+ "_" +:+ pretty i)
                   (cargo_width r) (cargo_height r) (cargo_depth r)
                   (cargo_weight r)) ixs).
Proof.
  revert packer. induction ixs as [| i ixs IH]; intros [bins items].
  - simpl. by rewrite app_nil_r.
  - simpl. rewrite IH. simpl. by rewrite <- app_assoc.
Qed.

Lemma packer_add_items (items : list CargoRecord) (packer : Packer.t) :
  fold_left
    (fun packer item =>
       fold_left
         (fun packer i =>
            Packer.add_item packer
              (Item.__init__ (cargo_name item +:+ "_" +:+ pretty i)
                 (cargo_width item) (cargo_height item) (cargo_depth item)
                 (cargo_weight item)))
         (range (cargo_count item)) packer)
    items packer
  = Packer.mk (Packer.bins packer)
      (Packer.items packer ++ concat (map unit_items items)).
Proof.
  revert packer. induction items as [| r items IH]; intros [bins its].
  - simpl. by rewrite app_nil_r.
  - simpl. rewrite packer_add_unit_items, IH. simpl.
    unfold unit_items at 2. by rewrite <- app_assoc.
Qed.

Lemma script_pack_items_unfold (container : Bin.t)
    (items : list CargoRecord) :
  container_only.pack_items container items
  = Packer.mk
      [Packer.pack_to_bin (concat (map unit_items items)) container]
      (concat (map unit_items items)).
Proof.
  unfold container_only.pack_items. by rewrite packer_add_items.
Qed.

(** X21. The script [container_only.py] and the class-based engine agree:
    for a bin and a container made from the same arguments and the same
    catalogue, [pack_items] of the script builds the packer that
    [PackingEngine] holds after a complete run, and
    [print_packing_results] returns what [get_load_efficiency] returns
    (both raise [ZeroDivisionError] on a container of volume 0). *)
Theorem script_agrees_with_engine (name : string) (w h d mw : Q)
    (items : list CargoRecord) :
  let bin := Bin.__init__ name w h d mw in
  let container := Container.__init__ name w h d mw in
  container_only.pack_items bin items
  = PackingEngine.packer (packing_run container items)
  /\ container_only.print_packing_results bin
       (container_only.pack_items bin items)
     = PackingEngine.get_load_efficiency (packing_run container items)
         container.
Proof.
  intros bin container. subst bin container.
  rewrite script_pack_items_unfold, packing_run_unfold.
  split; [reflexivity |].
  unfold container_only.print_packing_results,
    PackingEngine.get_load_efficiency, PackingEngine.packed_items.
  reflexivity.
Qed.













(** ** cargo_items.py: the CSV loader *)

(** X23. [_load_cargo_from_csv] returns all rows or none. When it returns
    a list, the file exists, [read_csv] gave a frame, and the list has
    one record for every row of the frame, in row order: read in metres
    when the frame has the six metre columns, and otherwise from the
    millimetre columns. So a single row that cannot be converted, or a
    frame with neither column set, makes it return [None], and a missing
    file makes it raise [NameError] instead of returning defaults. *)
Theorem load_is_all_or_nothing (sample_data : string -> cargo_items.file)
    (filename : string) :
  let csv_path := sample_data filename in
  match cargo_items._load_cargo_from_csv sample_data filename with
  | cargo_items.Loaded items =>
      cargo_items.exists_ csv_path = true
      /\ exists df,
           cargo_items.read_csv csv_path = Some df
           /\ length items = length (cargo_items.rows df)
           /\ if cargo_items.has_columns cargo_items.required_columns_m df
              then Forall2 (fun row item => cargo_items.row_m row = Some item)
                     (cargo_items.rows df) items
              else cargo_items.has_columns cargo_items.required_columns_mm df
                   = true
                   /\ Forall2
                        (fun row item => cargo_items.row_mm row = Some item)
                        (cargo_items.rows df) items
  | cargo_items.ReturnedNone =>
      cargo_items.exists_ csv_path = true
      /\ forall df,
           cargo_items.read_csv csv_path = Some df ->
           if cargo_items.has_columns cargo_items.required_columns_m df
           then Exists (fun row => cargo_items.row_m row = None)
                  (cargo_items.rows df)
           else cargo_items.has_columns cargo_items.required_columns_mm df
                = true ->
                Exists (fun row => cargo_items.row_mm row = None)
                  (cargo_items.rows df)
  | cargo_items.RaisedNameError => cargo_items.exists_ csv_path = false
  end.
Proof.
  intros csv_path. unfold cargo_items._load_cargo_from_csv. fold csv_path.
  destruct (cargo_items.exists_ csv_path); cbn [negb]; [| done].
  destruct (cargo_items.read_csv csv_path) as [df |]; [| done].
  assert (Hrows : forall (f : gmap string cargo_items.cell
                              -> option CargoRecord),
             match mapM f (cargo_items.rows df) with
             | Some items =>
                 length items = length (cargo_items.rows df)
                 /\ Forall2 (fun row item => f row = Some item)
                      (cargo_items.rows df) items
             | None =>
                 Exists (fun row => f row = None) (cargo_items.rows df)
             end).
  { intros f. destruct (mapM f (cargo_items.rows df)) as [items |] eqn:Hm.
    - apply mapM_Some in Hm. split; [| exact Hm].
      symmetry. by eapply Forall2_length.
    - by apply mapM_None in Hm. }
  destruct (cargo_items.has_columns cargo_items.required_columns_m df)
    eqn:Hm.
  - specialize (Hrows cargo_items.row_m).
    destruct (mapM cargo_items.row_m (cargo_items.rows df)) as [items |].
    + destruct Hrows as [Hlen Hall]. split; [done |]. exists df.
      rewrite Hm. split; [done |]. split; [exact Hlen | exact Hall].
    + split; [done |]. intros df' [= <-]. by rewrite Hm.
  - destruct (cargo_items.has_columns cargo_items.required_columns_mm df)
      eqn:Hmm.
    + specialize (Hrows cargo_items.row_mm).
      destruct (mapM cargo_items.row_mm (cargo_items.rows df)) as [items |].
      * destruct Hrows as [Hlen Hall]. split; [done |]. exists df.
        rewrite Hm. split; [done |]. split; [exact Hlen |].
        split; [exact Hmm | exact Hall].
      * split; [done |]. intros df' [= <-]. by rewrite Hm.
    + split; [done |]. intros df' [= <-]. rewrite Hm, Hmm. done.
Qed.
